(** * JobLink resume backend: controllers/resume.controller.js and lib/pythonAPI.js

    A shallow embedding of the resume controller (upload, get-one,
    update-analysis, delete, score helper) and of the analysis-service
    client, followed by the properties of the specification that concern
    them.

    Conventions of the embedding
    - A JavaScript number is an integer ([Z]); fractional values, NaN and
      the infinities are outside the model.
    - A JSON field that may be missing, [undefined] or [null] is an
      [option]; [None] stands for all three where the code does not tell
      them apart (it tests truthiness, [?.] and [||]). The one value that
      is written to the store as it comes, [req.body.analysisData], is
      taken with its key present: there [None] is [null].
    - An [async] function is a computation in the monad [M]: it threads
      the world (tables, bucket, trace of external calls) and either
      completes normally or throws. *)

From Stdlib Require Import ZArith String Ascii List Lia DecimalString.
From stdpp Require Import base option gmap strings list sorting.

Local Open Scope string_scope.
Local Open Scope list_scope.
Local Open Scope Z_scope.

(** ** JavaScript values used by the two files *)

(** What [throw] carries; of a caught error the two files use its
    [message] (and print the object with [console.error]). *)
Record JsError := { message : string }.

(** Truthiness of a number and of a string. *)
Definition truthy_num (n : Z) : bool := negb (n =? 0).
Definition truthy_str (s : string) : bool := negb (String.eqb s "").

(** [v || d] for a possibly missing value whose truthiness is [t]. *)
Definition js_or {A} (t : A -> bool) (v : option A) (d : A) : A :=
  match v with
  | Some x => if t x then x else d
  | None => d
  end.

(** Arrays and objects are always truthy. *)
Definition truthy_obj {A} (_ : A) : bool := true.

(** [!v] for a possibly missing string. *)
Definition js_not_str (v : option string) : bool :=
  match v with
  | Some s => negb (truthy_str s)
  | None => true
  end.

(** [arr.length] as a number. *)
Definition js_length {A} (l : list A) : Z := Z.of_nat (length l).

(** ** The analysis object returned by the Python service *)

(** What the controller reads of [response.data] when it is not null. A
    field is [None] when reading it yields [undefined] or [null]; a body
    of the wrong shape (an object without these keys, a string, a number)
    is the record with every field [None]. *)

Record Analysis := {
  skills : option (list string);
  categorized_skills : option (list (string * list string));
  experience_years : option Z;
  education : option (list string);
  certifications : option (list string);
  summary : option string
}.

(** ** calculateOverallScore (resume.controller.js, helper) *)

Definition calculateOverallScore (analysis : Analysis) : Z :=
  let score := 50 in
  let score :=
    (* if (analysis.skills?.length) *)
    match skills analysis with
    | Some sk =>
        if truthy_num (js_length sk)
        then score + Z.min (js_length sk * 2) 30
        else score
    | None => score
    end in
  let score :=
    (* if (analysis.experience_years) *)
    match experience_years analysis with
    | Some y =>
        if truthy_num y
        then score + Z.min (y * 2) 20
        else score
    | None => score
    end in
  Z.min score 100.

(** The two quantities the specification's formula is written in: the
    number of skills and the years of experience, a missing field counting
    for nothing (as the upload handler's own defaults [|| []] and [|| 0]). *)
Definition skillCount (a : Analysis) : Z :=
  js_length (js_or truthy_obj (skills a) []).

Definition experienceYears (a : Analysis) : Z :=
  js_or truthy_num (experience_years a) 0.

(** The score as the specification words it. *)
Definition spec_score (a : Analysis) : Z :=
  Z.min 100 (50 + Z.min (skillCount a * 2) 30 + Z.min (experienceYears a * 2) 20).

(** ** Data model of the relational store *)

(** The [analysis_data] column: what the upload handler builds, and what
    the update handler receives from the caller. *)
Record AnalysisData := {
  ad_skills : list string;
  ad_categorized_skills : list (string * list string);
  ad_experience_years : Z;
  ad_education : list string;
  ad_certifications : list string;
  ad_summary : string;
  ad_score : Z;
  ad_analyzed_at : string
}.

(** A row of table [resumes]. *)
Record ResumeRow := {
  id : string;
  candidate_id : string;
  resume_url : string;
  storage_path : option string;
  file_name : string;
  file_size : Z;
  analysis_data : option AnalysisData;
  updated_at : string
}.

(** The object handed to [.insert(...)]: the row without the columns the
    store fills in. *)
Record NewResume := {
  new_candidate_id : string;
  new_resume_url : string;
  new_storage_path : string;
  new_file_name : string;
  new_file_size : Z;
  new_analysis_data : option AnalysisData
}.

(** A row of table [profiles]; only [user_type] is read. *)
Record Profile := { user_type : option string }.

(** What [uploadToSupabase] resolves to. *)
Record UploadResult := {
  up_publicUrl : string;
  up_path : string;
  up_fileName : string;
  up_fileSize : Z
}.

(** The [{ data, error }] pair every supabase-js query resolves to. *)
Record DbResult (A : Type) := { data : option A; error : option JsError }.
Arguments data {A} _.
Arguments error {A} _.

Definition db_ok {A} (a : A) : DbResult A := {| data := Some a; error := None |}.
Definition db_err {A} (msg : string) : DbResult A :=
  {| data := None; error := Some {| message := msg |} |}.

(** ** HTTP: requests, responses, the analysis service *)

(** The part of [req] the handlers read: [req.user.id],
    [req.params.resumeId] and the keys of [req.body]. The body of an
    update carries the key [analysisData]; [body_analysisData] is its
    value, [None] for [null]. *)
Record Request := {
  user_id : string;
  param_resumeId : string;
  body_resumeFile : option string;
  body_fileName : option string;
  body_analysisData : option AnalysisData
}.

(** The JSON bodies passed to [res.json]: [{ message }],
    [{ message, error }], or a query's [data] (a row or [null]). *)
Inductive ResBody :=
| JMessage (msg : string)
| JServerError (msg : string) (err : string)
| JRecord (row : option ResumeRow).

(** [res.status(code).json(body)]. *)
Record Response := { status : Z; body : ResBody }.

(** The JSON bodies posted to the analysis service. *)
Inductive PostBody :=
| AnalyzeBody (resume_text : string) (file_name : option string) (file_type : string)
| MatchBody (resume_text job_description job_title : string)
            (required_skills : option (list string))
| SkillsBody (text : string).

(** How an axios call settles: with a response whose [data] is [d], or by
    rejecting (timeout, network error, non-2xx status). A body of the wrong
    shape is no rejection: the client hands [response.data] on unchecked. *)
Inductive HttpOutcome (D : Type) :=
| Replied (d : D)
| Failed (e : JsError).
Arguments Replied {D} d.
Arguments Failed {D} e.

(** [response.data] of [/api/analyze/match]; the client hands it through
    unread. *)
Record MatchResult := { match_score : Z; recommendations : list string }.

(** [response.data] of [/api/analyze/extract-skills]. *)
Record SkillsResult := {
  sr_skills : list string;
  sr_categorized : list (string * list string);
  sr_count : Z
}.

(** [response.data] of [/health]; only [status] is read. *)
Record HealthData := { health_status : option string }.

(** ** External calls and the world they act on *)

Inductive DbOp := OpSelectResume | OpSelectProfile | OpInsert | OpUpdate | OpDelete.

(** How [deleteFromSupabase] settles: the object is removed; the call
    resolves although the object was not removed (its failure stayed
    inside the helper); or, against the spec's wording of the helper, the
    call rejects. *)
Inductive DeleteOutcome :=
| Removed
| NotRemoved
| DeleteRejected (e : JsError).

(** Every call that leaves the process, in the order it is made. *)
Inductive Event :=
| EvUploadToSupabase (file folder name : string)
| EvDeleteFromSupabase (path : string)
| EvAxiosPost (url : string) (body : PostBody) (timeout : Z)
| EvAxiosGet (url : string) (timeout : Z)
| EvInsertResume (r : NewResume)
| EvSelectResume (rid : string) (scope : option string)
| EvSelectProfile (uid : string)
| EvUpdateAnalysis (rid cid : string) (ad : option AnalysisData)
| EvDeleteResume (rid cid : string)
| EvConsoleError (label detail : string).

Record World := {
  resumes : gmap string ResumeRow;
  profiles : gmap string Profile;
  bucket : gmap string string;
  trace : list Event
}.

(** What the surroundings decide during one request: the configuration,
    the clock, and how each collaborator answers. *)
Record Env := {
  env_PYTHON_API_URL : option string;
  date_now : Z;
  date_iso : string;
  upload_reply : HttpOutcome UploadResult;
  delete_reply : DeleteOutcome;
  analyze_reply : HttpOutcome (option Analysis);
  match_reply : HttpOutcome (option MatchResult);
  skills_reply : HttpOutcome (option SkillsResult);
  health_reply : HttpOutcome (option HealthData);
  db_fault : DbOp -> option string;
  db_new_id : string;
  db_clock : string
}.

(** ** The monad of async functions: world passing with exceptions *)

Inductive Completion (A : Type) :=
| Normal (a : A)
| Throw (e : JsError).
Arguments Normal {A} a.
Arguments Throw {A} e.

Definition M (A : Type) : Type := World -> Completion A * World.

#[global] Instance M_ret : MRet M := fun A a w => (Normal a, w).

#[global] Instance M_bind : MBind M := fun A B f m w =>
  match m w with
  | (Normal a, w') => f a w'
  | (Throw e, w') => (Throw e, w')
  end.

Definition throw {A} (e : JsError) : M A := fun w => (Throw e, w).

(** [try { body } catch (e) { handler e }] *)
Definition try_catch {A} (body : M A) (handler : JsError -> M A) : M A :=
  fun w =>
    match body w with
    | (Normal a, w') => (Normal a, w')
    | (Throw e, w') => handler e w'
    end.

(** The world after further external calls were made. *)
Definition add_events (w : World) (evs : list Event) : World :=
  {| resumes := resumes w; profiles := profiles w;
     bucket := bucket w; trace := trace w ++ evs |}.

Definition emit (ev : Event) : M unit :=
  fun w => (Normal tt, add_events w [ev]).

Definition get_world : M World := fun w => (Normal w, w).

Definition set_resumes (t : gmap string ResumeRow) : M unit :=
  fun w => (Normal tt,
            {| resumes := t; profiles := profiles w;
               bucket := bucket w; trace := trace w |}).

Definition set_bucket (b : gmap string string) : M unit :=
  fun w => (Normal tt,
            {| resumes := resumes w; profiles := profiles w;
               bucket := b; trace := trace w |}).

Definition console_error (label detail : string) : M unit :=
  emit (EvConsoleError label detail).

(** The TypeError of reading property [prop] of [what], which is [null] or
    [undefined] (V8's wording). *)
Definition TypeError_read (what prop : string) : JsError :=
  {| message := "Cannot read properties of " +:+ what +:+ " (reading '" +:+ prop +:+ "')" |}.

(** ** String methods the code calls *)

(** The text after the first comma, if there is one. *)
Fixpoint after_comma (s : string) : option string :=
  match s with
  | EmptyString => None
  | String c rest => if Ascii.eqb c "," then Some rest else after_comma rest
  end.

(** The text before the first comma (all of it when there is none). *)
Fixpoint until_comma (s : string) : string :=
  match s with
  | EmptyString => EmptyString
  | String c rest => if Ascii.eqb c "," then EmptyString else String c (until_comma rest)
  end.

(** [s.includes(',')] *)
Definition includes_comma (s : string) : bool :=
  match after_comma s with Some _ => true | None => false end.

(** [s.split(',')[1]], for [s] that includes a comma. *)
Definition split_comma_1 (s : string) : string :=
  match after_comma s with Some t => until_comma t | None => EmptyString end.

(** [s.endsWith(suffix)] *)
Definition endsWith (s suffix : string) : bool :=
  String.prefix (String.rev suffix) (String.rev s).

(** Template-literal rendering of an integer. *)
Definition show_Z (n : Z) : string := NilZero.string_of_int (Z.to_int n).

(** ** lib/pythonAPI.js: the analysis-service client *)

(** [process.env.PYTHON_API_URL || 'http://localhost:8000'] *)
Definition PYTHON_API_URL (env : Env) : string :=
  js_or truthy_str (env_PYTHON_API_URL env) "http://localhost:8000".

(** [axios.post(url, body, { timeout, headers })], reduced to the
    [response.data] the callers read. *)
Definition axios_post {D} (url : string) (b : PostBody) (timeout : Z)
    (reply : HttpOutcome D) : M D :=
  emit (EvAxiosPost url b timeout) ;;
  match reply with
  | Replied d => mret d
  | Failed e => throw e
  end.

(** [axios.get(url, { timeout })] *)
Definition axios_get {D} (url : string) (timeout : Z) (reply : HttpOutcome D) : M D :=
  emit (EvAxiosGet url timeout) ;;
  match reply with
  | Replied d => mret d
  | Failed e => throw e
  end.

Definition analyzeResumeWithAI (env : Env) (resumeText : string)
    (fileName : option string) : M (option Analysis) :=
  try_catch
    ((* the request body is built before the call: fileName.endsWith *)
     file_type ← match fileName with
                 | Some f => mret (if endsWith f ".pdf" then "pdf" else "docx")
                 | None => throw (TypeError_read "undefined" "endsWith")
                 end;
     axios_post (PYTHON_API_URL env +:+ "/api/analyze/resume")
       (AnalyzeBody resumeText fileName file_type) 30000 (analyze_reply env))
    (fun error =>
       console_error "Python API - Resume analysis error:" (message error) ;;
       mret None).

Definition calculateJobMatch (env : Env) (resumeText jobDescription jobTitle : string)
    (requiredSkills : option (list string)) : M (option MatchResult) :=
  try_catch
    (axios_post (PYTHON_API_URL env +:+ "/api/analyze/match")
       (MatchBody resumeText jobDescription jobTitle requiredSkills) 30000
       (match_reply env))
    (fun error =>
       console_error "Python API - Match calculation error:" (message error) ;;
       mret None).

(** [{ skills: [], categorized: {}, count: 0 }] *)
Definition no_skills : SkillsResult :=
  {| sr_skills := []; sr_categorized := []; sr_count := 0 |}.

Definition extractSkills (env : Env) (text : string) : M (option SkillsResult) :=
  try_catch
    (axios_post (PYTHON_API_URL env +:+ "/api/analyze/extract-skills")
       (SkillsBody text) 15000 (skills_reply env))
    (fun error =>
       console_error "Python API - Skill extraction error:" (message error) ;;
       mret (Some no_skills)).

Definition checkPythonAPIHealth (env : Env) : M bool :=
  try_catch
    (d ← axios_get (PYTHON_API_URL env +:+ "/health") 5000 (health_reply env);
     (* response.data.status === 'healthy' *)
     match d with
     | Some h =>
         mret (match health_status h with
               | Some s => String.eqb s "healthy"
               | None => false
               end)
     | None => throw (TypeError_read "null" "status")
     end)
    (fun error =>
       console_error "Python API health check failed:" (message error) ;;
       mret false).

(** ** lib/supabaseStorage.js and the supabase-js query builder *)

(** Modelled from the spec: [uploadToSupabase] of lib/supabaseStorage.js,
    which is not among the sources. The object store "accepts a binary
    payload + bucket + key, returns a public URL, storage path, and size";
    whether the write succeeds, and what it returns, is the surroundings'
    decision ([upload_reply]). *)
Definition uploadToSupabase (env : Env) (file folder name : string) : M UploadResult :=
  emit (EvUploadToSupabase file folder name) ;;
  match upload_reply env with
  | Replied r =>
      w ← get_world;
      set_bucket (<[up_path r := file]> (bucket w)) ;;
      mret r
  | Failed e => throw e
  end.

(** Modelled from the spec: [deleteFromSupabase] of lib/supabaseStorage.js,
    which is not among the sources. The object store "also supports
    deletion by path", and the deletion is best-effort: "its own failure is
    logged, not propagated", "deleting an already-absent key does not
    raise". So the call resolves, the object removed ([Removed]) or not
    ([NotRemoved]: the helper logged its failure and returned); the
    handlers never read its result. [DeleteRejected] is not an outcome of
    the helper the spec describes: it stands for a deletion that throws all
    the same, and is there to show what the handlers, which catch nothing
    around the call, would do with it. *)
Definition deleteFromSupabase (env : Env) (p : string) : M unit :=
  emit (EvDeleteFromSupabase p) ;;
  match delete_reply env with
  | Removed =>
      w ← get_world;
      set_bucket (delete p (bucket w))
  | NotRemoved => mret tt
  | DeleteRejected e => throw e
  end.

(** The error of [.single()] when the query does not yield exactly one row. *)
Definition PGRST116 : string := "JSON object requested, multiple (or no) rows returned".

(** [from('resumes').select(..).eq('id', rid)[.eq('candidate_id', cid)].single()] *)
Definition select_resume (env : Env) (rid : string) (scope : option string)
    : M (DbResult ResumeRow) :=
  emit (EvSelectResume rid scope) ;;
  w ← get_world;
  mret (match db_fault env OpSelectResume with
        | Some msg => db_err msg
        | None =>
            match resumes w !! rid with
            | Some row =>
                match scope with
                | Some cid =>
                    if String.eqb (candidate_id row) cid then db_ok row else db_err PGRST116
                | None => db_ok row
                end
            | None => db_err PGRST116
            end
        end).

(** [from('profiles').select('user_type').eq('id', uid).single()] *)
Definition select_profile (env : Env) (uid : string) : M (DbResult Profile) :=
  emit (EvSelectProfile uid) ;;
  w ← get_world;
  mret (match db_fault env OpSelectProfile with
        | Some msg => db_err msg
        | None =>
            match profiles w !! uid with
            | Some p => db_ok p
            | None => db_err PGRST116
            end
        end).

Definition row_of_new (env : Env) (r : NewResume) : ResumeRow :=
  {| id := db_new_id env;
     candidate_id := new_candidate_id r;
     resume_url := new_resume_url r;
     storage_path := Some (new_storage_path r);
     file_name := new_file_name r;
     file_size := new_file_size r;
     analysis_data := new_analysis_data r;
     updated_at := db_clock env |}.

(** Why the store refuses an insert, when it does: a fault of its own, or
    a generated primary key that is already taken. *)
Definition insert_refusal (env : Env) (t : gmap string ResumeRow) : option string :=
  match db_fault env OpInsert with
  | Some msg => Some msg
  | None =>
      match t !! db_new_id env with
      | Some _ => Some "duplicate key value violates unique constraint"
      | None => None
      end
  end.

(** [from('resumes').insert(r).select().single()] *)
Definition insert_resume (env : Env) (r : NewResume) : M (DbResult ResumeRow) :=
  emit (EvInsertResume r) ;;
  w ← get_world;
  match insert_refusal env (resumes w) with
  | Some msg => mret (db_err msg)
  | None =>
      set_resumes (<[db_new_id env := row_of_new env r]> (resumes w)) ;;
      mret (db_ok (row_of_new env r))
  end.

(** The row after [update({ analysis_data: ad })]: that column is
    replaced. Whether the store changes anything else on an update (a
    trigger that moves [updated_at]) is decided by its schema, which is
    not among the sources; the model leaves the other columns as they are. *)
Definition with_analysis (row : ResumeRow) (ad : option AnalysisData) : ResumeRow :=
  {| id := id row;
     candidate_id := candidate_id row;
     resume_url := resume_url row;
     storage_path := storage_path row;
     file_name := file_name row;
     file_size := file_size row;
     analysis_data := ad;
     updated_at := updated_at row |}.

(** [from('resumes').update({ analysis_data }).eq('id', rid)
      .eq('candidate_id', cid).select().single()], for a payload that
    carries the column: [ad] is the value sent, [None] for [null]. (A
    request body without the key gives the payload [{}], which sets no
    column; that request is outside the model.) *)
Definition update_analysis (env : Env) (rid cid : string) (ad : option AnalysisData)
    : M (DbResult ResumeRow) :=
  emit (EvUpdateAnalysis rid cid ad) ;;
  w ← get_world;
  match db_fault env OpUpdate with
  | Some msg => mret (db_err msg)
  | None =>
      match resumes w !! rid with
      | Some row =>
          if String.eqb (candidate_id row) cid
          then set_resumes (<[rid := with_analysis row ad]> (resumes w)) ;;
               mret (db_ok (with_analysis row ad))
          else mret (db_err PGRST116)
      | None => mret (db_err PGRST116)
      end
  end.

(** [from('resumes').delete().eq('id', rid).eq('candidate_id', cid)] *)
Definition delete_resume (env : Env) (rid cid : string) : M (DbResult unit) :=
  emit (EvDeleteResume rid cid) ;;
  w ← get_world;
  match db_fault env OpDelete with
  | Some msg => mret (db_err msg)
  | None =>
      match resumes w !! rid with
      | Some row =>
          if String.eqb (candidate_id row) cid
          then set_resumes (delete rid (resumes w)) ;; mret (db_ok tt)
          else mret (db_ok tt)
      | None => mret (db_ok tt)
      end
  end.

(** ** controllers/resume.controller.js *)

(** The stub of the source: whatever the content, the same text. *)
Definition extractTextFromBase64 (base64Content : string) (fileName : option string)
    : M string :=
  mret "Placeholder resume text".

Definition respond (code : Z) (b : ResBody) : M Response :=
  mret {| status := code; body := b |}.

(** The object literal assigned to [analysisData]. *)
Definition build_analysisData (env : Env) (aiAnalysis : Analysis) : AnalysisData :=
  {| ad_skills := js_or truthy_obj (skills aiAnalysis) [];
     ad_categorized_skills := js_or truthy_obj (categorized_skills aiAnalysis) [];
     ad_experience_years := js_or truthy_num (experience_years aiAnalysis) 0;
     ad_education := js_or truthy_obj (education aiAnalysis) [];
     ad_certifications := js_or truthy_obj (certifications aiAnalysis) [];
     ad_summary := js_or truthy_str (summary aiAnalysis) "";
     ad_score := calculateOverallScore aiAnalysis;
     ad_analyzed_at := date_iso env |}.

(** Step 2 of [uploadResume]: the inner [try]/[catch] around the analysis. *)
Definition enrich (env : Env) (resumeFile : string) (fileName : option string)
    : M (option AnalysisData) :=
  try_catch
    (let base64Content :=
       if includes_comma resumeFile then split_comma_1 resumeFile else resumeFile in
     resumeText ← extractTextFromBase64 base64Content fileName;
     aiAnalysis ← analyzeResumeWithAI env resumeText fileName;
     match aiAnalysis with
     | Some ai => mret (Some (build_analysisData env ai))
     | None => throw (TypeError_read "null" "skills")
     end)
    (fun err =>
       console_error "AI analysis failed:" (message err) ;;
       (* Resume upload should still succeed *)
       mret None).

(** The storage key of an upload: [`resume_${candidateId}_${Date.now()}`]. *)
Definition upload_key (env : Env) (candidateId : string) : string :=
  "resume_" +:+ candidateId +:+ "_" +:+ show_Z (date_now env).

Definition uploadResume (env : Env) (req : Request) : M Response :=
  try_catch
    (let candidateId := user_id req in
     let fileName := body_fileName req in
     (* if (!resumeFile) *)
     match body_resumeFile req with
     | None => respond 400 (JMessage "Resume file is required")
     | Some resumeFile =>
         if negb (truthy_str resumeFile)
         then respond 400 (JMessage "Resume file is required")
         else
           uploadResult ← uploadToSupabase env resumeFile "resumes"
                            (upload_key env candidateId);
           analysisData ← enrich env resumeFile fileName;
           r ← insert_resume env
                 {| new_candidate_id := candidateId;
                    new_resume_url := up_publicUrl uploadResult;
                    new_storage_path := up_path uploadResult;
                    new_file_name := js_or truthy_str fileName (up_fileName uploadResult);
                    new_file_size := up_fileSize uploadResult;
                    new_analysis_data := analysisData |};
           match error r with
           | Some e =>
               deleteFromSupabase env (up_path uploadResult) ;;
               respond 400 (JMessage (message e))
           | None => respond 201 (JRecord (data r))
           end
     end)
    (fun error =>
       console_error "uploadResume error:" (message error) ;;
       respond 500 (JServerError "Server error" (message error))).

Definition getResume (env : Env) (req : Request) : M Response :=
  try_catch
    (let resumeId := param_resumeId req in
     let userId := user_id req in
     r ← select_resume env resumeId None;
     match error r, data r with
     | None, Some row =>
         p ← select_profile env userId;
         let profile := data p in
         let is_candidate :=
           match profile with
           | Some pr =>
               match user_type pr with
               | Some t => String.eqb t "candidate"
               | None => false
               end
           | None => false
           end in
         if is_candidate && negb (String.eqb (candidate_id row) userId)
         then respond 403 (JMessage "Unauthorized")
         else respond 200 (JRecord (Some row))
     | _, _ => respond 404 (JMessage "Resume not found")
     end)
    (fun error =>
       console_error "getResume error:" (message error) ;;
       respond 500 (JMessage "Server error")).

Definition updateResumeAnalysis (env : Env) (req : Request) : M Response :=
  try_catch
    (let resumeId := param_resumeId req in
     let analysisData := body_analysisData req in
     let candidateId := user_id req in
     r ← update_analysis env resumeId candidateId analysisData;
     match error r with
     | Some e => respond 400 (JMessage (message e))
     | None => respond 200 (JRecord (data r))
     end)
    (fun error =>
       console_error "updateResumeAnalysis error:" (message error) ;;
       respond 500 (JMessage "Server error")).

Definition deleteResume (env : Env) (req : Request) : M Response :=
  try_catch
    (let resumeId := param_resumeId req in
     let candidateId := user_id req in
     r ← select_resume env resumeId (Some candidateId);
     match error r, data r with
     | None, Some resume =>
         delete_resume env resumeId candidateId ;;
         match storage_path resume with
         | Some p =>
             if truthy_str p then deleteFromSupabase env p else mret tt
         | None => mret tt
         end ;;
         respond 200 (JMessage "Resume deleted successfully")
     | _, _ => respond 404 (JMessage "Resume not found")
     end)
    (fun error =>
       console_error "deleteResume error:" (message error) ;;
       respond 500 (JMessage "Server error")).


(** ** Vocabulary of the specification *)

(** The analysis step fails, as the code sees it: the request body cannot
    be built because the file name is missing, the HTTP call rejects
    (timeout, network error, error status), or the call yields null. These
    are the cases in which something is thrown and caught. A reply of the
    wrong shape is not among them: nothing checks [response.data], and
    reading a missing field of a non-null value throws nothing. *)
Definition analysis_fails (env : Env) (fileName : option string) : Prop :=
  fileName = None \/
  (exists e, analyze_reply env = Failed e) \/
  analyze_reply env = Replied None.

(** The data model's invariant on one row: a present [analysis_data]
    carries a score within [0,100]. *)
Definition row_score_ok (row : ResumeRow) : Prop :=
  match analysis_data row with
  | Some ad => 0 <= ad_score ad <= 100
  | None => True
  end.

(** The invariant on the whole table. *)
Definition score_in_range (t : gmap string ResumeRow) : Prop :=
  map_Forall (fun _ row => row_score_ok row) t.

(** The caller's profile row is found and says ['candidate']. *)
Definition caller_is_candidate (env : Env) (w : World) (uid : string) : Prop :=
  db_fault env OpSelectProfile = None /\
  exists p, profiles w !! uid = Some p /\ user_type p = Some "candidate".

(** ** controllers/resume.controller.js: getMyResumes *)

(** The bodies [getMyResumes] passes to [res.json]: [{ message }] or an
    array of rows. *)
Inductive ListBody :=
| LMessage (msg : string)
| LRows (rows : list ResumeRow).

Record ListResponse := { list_status : Z; list_body : ListBody }.

(** [order('updated_at', { ascending: false })], given the store's order
    on [updated_at] values ([ts_leb a b] when [a] is not later than [b]):
    a row comes before another when it is not older. *)
Definition newer_first (ts_leb : string -> string -> bool) (r1 r2 : ResumeRow) : Prop :=
  ts_leb (updated_at r2) (updated_at r1) = true.

#[global] Instance newer_first_dec (ts_leb : string -> string -> bool) (r1 r2 : ResumeRow) :
  Decision (newer_first ts_leb r1 r2).
Proof. unfold newer_first. apply _. Defined.

(** [from('resumes').select('*').eq('candidate_id', cid)
      .order('updated_at', { ascending: false })]. The query only reads;
    rows with equal timestamps come in an order of the store's choosing.
    The trace has no event for this read. *)
Definition select_resumes_of (ts_leb : string -> string -> bool) (env : Env)
    (cid : string) : M (DbResult (list ResumeRow)) :=
  w ← get_world;
  mret (match db_fault env OpSelectResume with
        | Some msg => db_err msg
        | None =>
            db_ok (merge_sort (newer_first ts_leb)
                     (filter (fun row => candidate_id row = cid)
                        (map_to_list (resumes w)).*2))
        end).

Definition getMyResumes (ts_leb : string -> string -> bool) (env : Env) (req : Request)
    : M ListResponse :=
  try_catch
    (let candidateId := user_id req in
     r ← select_resumes_of ts_leb env candidateId;
     match error r with
     | Some e => mret {| list_status := 400; list_body := LMessage (message e) |}
     | None =>
         (* data || [] *)
         mret {| list_status := 200;
                 list_body := LRows (js_or truthy_obj (data r) []) |}
     end)
    (fun error =>
       console_error "getMyResumes error:" (message error) ;;
       mret {| list_status := 500; list_body := LMessage "Server error" |}).

(** ** Further vocabulary *)

(** The events the analysis step may produce: an HTTP post or a log line. *)
Definition analysis_event (ev : Event) : Prop :=
  match ev with
  | EvAxiosPost _ _ _ | EvConsoleError _ _ => True
  | _ => False
  end.

(** The events that reach the object store. *)
Definition storage_event (ev : Event) : Prop :=
  match ev with
  | EvUploadToSupabase _ _ _ | EvDeleteFromSupabase _ => True
  | _ => False
  end.

(** The row [t] holds under [k] belongs to somebody other than [cid]. *)
Definition foreign_row (t : gmap string ResumeRow) (cid k : string) (row : ResumeRow) : Prop :=
  t !! k = Some row /\ candidate_id row <> cid.

(** The object [uploadResume] hands to the insert, given what the storage
    write returned and what the analysis step produced. *)
Definition upload_insertion (req : Request) (stored : UploadResult)
    (ad : option AnalysisData) : NewResume :=
  {| new_candidate_id := user_id req;
     new_resume_url := up_publicUrl stored;
     new_storage_path := up_path stored;
     new_file_name := js_or truthy_str (body_fileName req) (up_fileName stored);
     new_file_size := up_fileSize stored;
     new_analysis_data := ad |}.

(** The score recomputed from the fields stored beside it. *)
Definition score_of_stored (ad : AnalysisData) : Z :=
  Z.min 100 (50 + Z.min (js_length (ad_skills ad) * 2) 30
                + Z.min (ad_experience_years ad * 2) 20).

(** The storage deletion settles as the spec words the helper: it does not
    raise. *)
Definition delete_does_not_raise (env : Env) : Prop :=
  match delete_reply env with
  | DeleteRejected _ => False
  | _ => True
  end.
(** * Concrete inputs used by the examples *)

(** An analysis that reports a negative number of years. *)
Definition analysis_negative_years : Analysis :=
  {| skills := Some [];
     categorized_skills := None;
     experience_years := Some (-3);
     education := None;
     certifications := None;
     summary := None |}.

Definition analysis_junior : Analysis :=
  {| skills := Some ["sql"; "git"];
     categorized_skills := None;
     experience_years := Some 1;
     education := None;
     certifications := None;
     summary := None |}.

Definition analysis_senior : Analysis :=
  {| skills := Some ["sql"; "git"; "go"; "rust"; "k8s"];
     categorized_skills := None;
     experience_years := Some 3;
     education := None;
     certifications := None;
     summary := None |}.

(** ** Running the monad *)

(** Unfolds the monadic plumbing, leaving the calls of named functions. *)
Ltac unfold_monad :=
  unfold console_error, respond in *;
  unfold try_catch, throw, emit, get_world, set_resumes, set_bucket,
    mbind, M_bind, mret, M_ret in *;
  cbn beta iota zeta in *.

(** Unfolds the analysis-service client down to the plumbing. *)
Ltac run_client :=
  unfold analyzeResumeWithAI, calculateJobMatch, extractSkills, checkPythonAPIHealth in *;
  unfold axios_post, axios_get in *;
  unfold_monad.

(** Unfolds the storage helpers and the queries down to the plumbing. *)
Ltac run_store :=
  unfold uploadToSupabase, deleteFromSupabase, select_resume, select_profile,
    insert_resume, update_analysis, delete_resume in *;
  unfold_monad.

(** Brings a trace to the form [trace w ++ e1 :: e2 :: ...]. *)
Ltac trace_norm := cbn [trace add_events]; rewrite <- ?app_assoc; cbn [app].

(** ** Worlds, surroundings and requests *)

Definition timeout_error : JsError := {| message := "timeout of 30000ms exceeded" |}.

Definition stored_u1 : UploadResult :=
  {| up_publicUrl := "https://store.example/resumes/resume_u1_1700";
     up_path := "resumes/resume_u1_1700";
     up_fileName := "resume_u1_1700";
     up_fileSize := 4 |}.

(** Surroundings in which the object store accepts the upload; the
    analysis service, the compensating delete and the store's faults are
    left to choose. *)
Definition surroundings (service : HttpOutcome (option Analysis))
    (del : DeleteOutcome) (fault : DbOp -> option string) : Env :=
  {| env_PYTHON_API_URL := None;
     date_now := 1700;
     date_iso := "2024-05-01T10:00:00.000Z";
     upload_reply := Replied stored_u1;
     delete_reply := del;
     analyze_reply := service;
     match_reply := Failed timeout_error;
     skills_reply := Failed timeout_error;
     health_reply := Replied (Some {| health_status := Some "healthy" |});
     db_fault := fault;
     db_new_id := "r9";
     db_clock := "2024-05-01T10:00:01Z" |}.

Definition no_fault : DbOp -> option string := fun _ => None.

Definition insert_fault : DbOp -> option string :=
  fun op => match op with OpInsert => Some "insert failed" | _ => None end.

Definition env_ok : Env := surroundings (Replied (Some analysis_senior)) Removed no_fault.

Definition env_service_down : Env := surroundings (Failed timeout_error) Removed no_fault.

Definition storage_error : JsError := {| message := "storage unreachable" |}.

Definition env_insert_fails (del : DeleteOutcome) : Env :=
  surroundings (Replied (Some analysis_senior)) del insert_fault.

Definition world_empty : World :=
  {| resumes := ∅; profiles := ∅; bucket := ∅; trace := [] |}.

Definition row_r1 : ResumeRow :=
  {| id := "r1";
     candidate_id := "u1";
     resume_url := "https://store.example/resumes/resume_u1_1600";
     storage_path := Some "resumes/resume_u1_1600";
     file_name := "cv.pdf";
     file_size := 4;
     analysis_data := None;
     updated_at := "2024-04-01T00:00:00Z" |}.

(** One resume of candidate u1; u2 is another candidate, u3 a recruiter,
    u4 has no profile row. *)
Definition world_one : World :=
  {| resumes := {[ "r1" := row_r1 ]};
     profiles := <[ "u1" := {| user_type := Some "candidate" |} ]>
                 (<[ "u2" := {| user_type := Some "candidate" |} ]>
                  {[ "u3" := {| user_type := Some "recruiter" |} ]});
     bucket := {[ "resumes/resume_u1_1600" := "JVBERi0x" ]};
     trace := [] |}.

Definition req_upload : Request :=
  {| user_id := "u1";
     param_resumeId := "";
     body_resumeFile := Some "data:application/pdf;base64,JVBERi0x";
     body_fileName := Some "resume.pdf";
     body_analysisData := None |}.

Definition req_upload_no_file : Request :=
  {| user_id := "u1";
     param_resumeId := "";
     body_resumeFile := None;
     body_fileName := Some "resume.pdf";
     body_analysisData := None |}.

(** A request of user [uid] about resume r1. *)
Definition req_r1 (uid : string) (ad : option AnalysisData) : Request :=
  {| user_id := uid;
     param_resumeId := "r1";
     body_resumeFile := None;
     body_fileName := None;
     body_analysisData := ad |}.

(** Caller-supplied analysis data with a score outside the range. *)
Definition analysis_data_150 : AnalysisData :=
  {| ad_skills := [];
     ad_categorized_skills := [];
     ad_experience_years := 0;
     ad_education := [];
     ad_certifications := [];
     ad_summary := "";
     ad_score := 150;
     ad_analyzed_at := "2024-05-01T10:00:00.000Z" |}.

(** An analysis reporting thirty years below zero. *)
Definition analysis_minus_thirty : Analysis :=
  {| skills := Some [];
     categorized_skills := None;
     experience_years := Some (-30);
     education := None;
     certifications := None;
     summary := None |}.

Definition env_minus_thirty : Env :=
  surroundings (Replied (Some analysis_minus_thirty)) Removed no_fault.

(** Surroundings in which the storage deletion throws. *)
Definition env_delete_rejected : Env :=
  surroundings (Replied (Some analysis_senior)) (DeleteRejected storage_error) no_fault.

(** A malformed reply: a non-null body with none of the expected fields
    (an empty object, or a string or number, whose fields all read as
    undefined). *)
Definition analysis_blank : Analysis :=
  {| skills := None;
     categorized_skills := None;
     experience_years := None;
     education := None;
     certifications := None;
     summary := None |}.

Definition env_blank_reply : Env :=
  surroundings (Replied (Some analysis_blank)) Removed no_fault.

(** A second resume of u1, newer than r1, and one of u2. *)
Definition row_r2 : ResumeRow :=
  {| id := "r2";
     candidate_id := "u1";
     resume_url := "https://store.example/resumes/resume_u1_1650";
     storage_path := Some "resumes/resume_u1_1650";
     file_name := "cv2.pdf";
     file_size := 5;
     analysis_data := None;
     updated_at := "2024-04-20T00:00:00Z" |}.

Definition row_r3 : ResumeRow :=
  {| id := "r3";
     candidate_id := "u2";
     resume_url := "https://store.example/resumes/resume_u2_1660";
     storage_path := Some "resumes/resume_u2_1660";
     file_name := "other.pdf";
     file_size := 6;
     analysis_data := None;
     updated_at := "2024-04-25T00:00:00Z" |}.

Definition world_three : World :=
  {| resumes := <[ "r1" := row_r1 ]> (<[ "r2" := row_r2 ]> {[ "r3" := row_r3 ]});
     profiles := profiles world_one;
     bucket := ∅;
     trace := [] |}.

(** Surroundings in which the object store refuses the upload. *)
Definition env_storage_down : Env :=
  {| env_PYTHON_API_URL := None;
     date_now := 1700;
     date_iso := "2024-05-01T10:00:00.000Z";
     upload_reply := Failed storage_error;
     delete_reply := Removed;
     analyze_reply := Replied (Some analysis_senior);
     match_reply := Failed timeout_error;
     skills_reply := Failed timeout_error;
     health_reply := Replied (Some {| health_status := Some "degraded" |});
     db_fault := no_fault;
     db_new_id := "r9";
     db_clock := "2024-05-01T10:00:01Z" |}.

(** An upload request that names no file. *)
Definition req_upload_unnamed : Request :=
  {| user_id := "u1";
     param_resumeId := "";
     body_resumeFile := Some "JVBERi0x";
     body_fileName := None;
     body_analysisData := None |}.

(** A request of user [uid] about the resume stored under [rid]. *)
Definition req_about (uid rid : string) : Request :=
  {| user_id := uid;
     param_resumeId := rid;
     body_resumeFile := None;
     body_fileName := None;
     body_analysisData := None |}.

(** The row the upload of [req_upload] inserts in [env_ok]. *)
Definition row_r9 : ResumeRow :=
  row_of_new env_ok
    (upload_insertion req_upload stored_u1
       (Some (build_analysisData env_ok analysis_senior))).

(** Caller-supplied analysis data with a score of 70. *)
Definition analysis_data_70 : AnalysisData :=
  {| ad_skills := ["sql"];
     ad_categorized_skills := [];
     ad_experience_years := 2;
     ad_education := [];
     ad_certifications := [];
     ad_summary := "edited by hand";
     ad_score := 70;
     ad_analyzed_at := "2024-05-02T09:00:00.000Z" |}.

(** Surroundings in which the store fails to execute the row delete. *)
Definition delete_fault : DbOp -> option string :=
  fun op => match op with OpDelete => Some "delete failed" | _ => None end.

Definition env_row_delete_fails : Env :=
  surroundings (Replied (Some analysis_senior)) Removed delete_fault.
(** * Properties *)

(** ** The score calculator *)

Lemma js_length_nonneg {A} (l : list A) : 0 <= js_length l.
Proof. unfold js_length. lia. Qed.

Lemma truthy_num_false (n : Z) : truthy_num n = false -> n = 0.
Proof. unfold truthy_num. destruct (Z.eqb_spec n 0); [auto | discriminate]. Qed.

Lemma skillCount_nonneg (a : Analysis) : 0 <= skillCount a.
Proof. apply js_length_nonneg. Qed.

(** The score in terms of the two quantities it depends on. *)
Lemma calculateOverallScore_spec (a : Analysis) :
  calculateOverallScore a = spec_score a.
Proof.
  unfold calculateOverallScore, spec_score, skillCount, experienceYears, js_or, truthy_obj.
  destruct (skills a) as [sk|], (experience_years a) as [y|]; simpl.
  - pose proof (js_length_nonneg sk).
    destruct (truthy_num (js_length sk)) eqn:Hs, (truthy_num y) eqn:Hy;
      try apply truthy_num_false in Hs; try apply truthy_num_false in Hy; lia.
  - pose proof (js_length_nonneg sk).
    destruct (truthy_num (js_length sk)) eqn:Hs;
      try apply truthy_num_false in Hs; lia.
  - change (js_length (@nil string)) with 0.
    destruct (truthy_num y) eqn:Hy; try apply truthy_num_false in Hy; lia.
  - change (js_length (@nil string)) with 0. lia.
Qed.

(** C3. The score calculator computes
    min(100, 50 + min(skillCount * 2, 30) + min(experienceYears * 2, 20));
    with five skills and three years of experience it returns 66. *)
Theorem calculateOverallScore_formula :
  (forall a : Analysis,
      calculateOverallScore a
      = Z.min 100 (50 + Z.min (skillCount a * 2) 30 + Z.min (experienceYears a * 2) 20))
  /\
  (forall (s1 s2 s3 s4 s5 : string) cs ed ce su,
      calculateOverallScore
        {| skills := Some [s1; s2; s3; s4; s5];
           categorized_skills := cs;
           experience_years := Some 3;
           education := ed;
           certifications := ce;
           summary := su |} = 66).
Proof.
  split.
  - intros a. apply calculateOverallScore_spec.
  - intros. reflexivity.
Qed.

(** C4, as stated, fails: a negative experience value is truthy, so twice
    its value is added to the base and the score drops below 50. *)
Lemma score_not_always_above_50 :
  calculateOverallScore analysis_negative_years = 44 /\
  ~ (forall a : Analysis, 50 <= calculateOverallScore a <= 100).
Proof.
  split; [reflexivity |].
  intros H. specialize (H analysis_negative_years).
  vm_compute in H. destruct H as [H _]. apply H. reflexivity.
Qed.

(** C4, amended. For every analysis whose experience value is not negative
    the score lies in [50,100]; and the score never decreases when the skill
    count or the years of experience grow. *)
Theorem score_range_and_monotone :
  (forall a : Analysis,
      0 <= experienceYears a -> 50 <= calculateOverallScore a <= 100)
  /\
  (forall a b : Analysis,
      skillCount a <= skillCount b ->
      experienceYears a <= experienceYears b ->
      calculateOverallScore a <= calculateOverallScore b).
Proof.
  split.
  - intros a Hy. rewrite calculateOverallScore_spec. unfold spec_score.
    pose proof (skillCount_nonneg a). lia.
  - intros a b Hs Hy. rewrite !calculateOverallScore_spec. unfold spec_score. lia.
Qed.

Lemma score_range_and_monotone_witness :
  50 <= calculateOverallScore analysis_junior <= 100 /\
  calculateOverallScore analysis_junior <= calculateOverallScore analysis_senior.
Proof.
  split.
  - apply (proj1 score_range_and_monotone analysis_junior). vm_compute. discriminate.
  - apply (proj2 score_range_and_monotone analysis_junior analysis_senior);
      vm_compute; discriminate.
Defined.

(** ** The analysis-service client *)

(** C9. The client never raises. Whatever the input and however the HTTP
    call settles, each function completes normally; on any failure the
    resume-analysis and job-match calls return null, the extract-skills
    call returns the empty sentinel, and the health check returns false,
    being true only when the reply's status is "healthy". *)
Theorem analysis_client_never_raises (env : Env) (w : World) :
  (forall text fn, exists r w',
      analyzeResumeWithAI env text fn w = (Normal r, w') /\
      ((fn = None \/ exists e, analyze_reply env = Failed e) -> r = None)) /\
  (forall text descr title req, exists r w',
      calculateJobMatch env text descr title req w = (Normal r, w') /\
      ((exists e, match_reply env = Failed e) -> r = None)) /\
  (forall text, exists r w',
      extractSkills env text w = (Normal r, w') /\
      ((exists e, skills_reply env = Failed e) ->
       r = Some {| sr_skills := []; sr_categorized := []; sr_count := 0 |})) /\
  (exists b w',
      checkPythonAPIHealth env w = (Normal b, w') /\
      ((exists e, health_reply env = Failed e) -> b = false) /\
      (b = true <->
       exists h, health_reply env = Replied (Some h) /\ health_status h = Some "healthy")).
Proof.
  repeat split.
  - intros text fn. run_client.
    destruct fn as [f|]; cbn.
    + destruct (analyze_reply env) as [d|e] eqn:Hr; cbn; eexists _, _; split; eauto.
      * intros [H|[e' H]]; discriminate.
    + eexists _, _; split; eauto.
  - intros text descr title req. run_client.
    destruct (match_reply env) as [d|e] eqn:Hr; cbn; eexists _, _; split; eauto.
    intros [e' H]; discriminate.
  - intros text. run_client.
    destruct (skills_reply env) as [d|e] eqn:Hr; cbn; eexists _, _; split; eauto.
    intros [e' H]; discriminate.
  - run_client.
    destruct (health_reply env) as [[h|]|e] eqn:Hr; cbn.
    + eexists _, _; split; [reflexivity|]. split.
      * intros [e' H]; discriminate.
      * destruct h as [[s|]]; cbn; split.
        -- intros Hs. apply String.eqb_eq in Hs. subst. eauto.
        -- intros (h & Hh & Hs). injection Hh as <-. cbn in Hs.
           injection Hs as ->. reflexivity.
        -- discriminate.
        -- intros (h & Hh & Hs). injection Hh as <-. discriminate.
    + eexists _, _; split; [reflexivity|]. split; [reflexivity|].
      split; [discriminate|]. intros (h & Hh & _). discriminate.
    + eexists _, _; split; [reflexivity|]. split; [reflexivity|].
      split; [discriminate|]. intros (h & Hh & _). discriminate.
Qed.

Lemma analysis_client_never_raises_witness :
  exists r w',
    extractSkills env_service_down "python, sql" world_empty = (Normal r, w') /\
    r = Some {| sr_skills := []; sr_categorized := []; sr_count := 0 |}.
Proof.
  destruct (analysis_client_never_raises env_service_down world_empty)
    as (_ & _ & Hskills & _).
  destruct (Hskills "python, sql") as (r & w' & Hrun & Hfail).
  exists r, w'. split; [exact Hrun |].
  apply Hfail. eexists. reflexivity.
Defined.

(** ** Upload *)

(** C6. Upload checks the file first: when [resumeFile] is absent (missing,
    null or empty) the handler answers 400 "Resume file is required" and
    the world is untouched: no storage write, no analysis call, no insert,
    nothing logged. *)
Theorem upload_requires_file (env : Env) (req : Request) (w : World) :
  js_not_str (body_resumeFile req) = true ->
  uploadResume env req w
  = (Normal {| status := 400; body := JMessage "Resume file is required" |}, w).
Proof.
  intros Habsent. unfold uploadResume. unfold_monad.
  destruct (body_resumeFile req) as [file|]; cbn in *.
  - rewrite Habsent. reflexivity.
  - reflexivity.
Qed.

Lemma upload_requires_file_witness :
  uploadResume env_ok req_upload_no_file world_empty
  = (Normal {| status := 400; body := JMessage "Resume file is required" |}, world_empty).
Proof. apply upload_requires_file. reflexivity. Defined.

(** The enrichment step never throws and touches nothing but the trace;
    it yields null when the analysis fails, after logging the failure, and
    the built analysis data when the service answers with an object. *)
Lemma enrich_run (env : Env) (file : string) (fn : option string) (w : World) :
  exists ad evs,
    enrich env file fn w = (Normal ad, add_events w evs) /\
    (analysis_fails env fn ->
     ad = None /\
     exists evs0 detail, evs = evs0 ++ [EvConsoleError "AI analysis failed:" detail]) /\
    (forall f a, fn = Some f -> analyze_reply env = Replied (Some a) ->
     ad = Some (build_analysisData env a)).
Proof.
  unfold enrich, extractTextFromBase64. run_client. unfold analysis_fails.
  destruct fn as [f|]; cbn.
  - destruct (analyze_reply env) as [[a|]|e] eqn:Hr; cbn.
    + eexists (Some (build_analysisData env a)), [EvAxiosPost _ _ _].
      split; [reflexivity |]. split.
      * intros [H|[[e H]|H]]; discriminate.
      * intros f' a' _ Ha. injection Ha as <-. reflexivity.
    + eexists None, [EvAxiosPost _ _ _; EvConsoleError _ _].
      split; [unfold add_events; cbn; rewrite <- app_assoc; reflexivity |]. split.
      * intros _. split; [reflexivity |]. eexists [EvAxiosPost _ _ _], _. reflexivity.
      * intros f' a' _ Ha. discriminate.
    + eexists None, [EvAxiosPost _ _ _; EvConsoleError _ _; EvConsoleError _ _].
      split; [unfold add_events; cbn; rewrite <- !app_assoc; reflexivity |]. split.
      * intros _. split; [reflexivity |].
        eexists [EvAxiosPost _ _ _; EvConsoleError _ _], _. reflexivity.
      * intros f' a' _ Ha. discriminate.
  - eexists None, [EvConsoleError _ _; EvConsoleError _ _].
    split; [unfold add_events; cbn; rewrite <- !app_assoc; reflexivity |]. split.
    + intros _. split; [reflexivity |]. eexists [EvConsoleError _ _], _. reflexivity.
    + intros f' a' Hf. discriminate.
Qed.

(** Runs [uploadResume] up to the insert: file present, object stored. *)
Ltac upload_to_insert Hfile Htruthy Hstored :=
  unfold uploadResume; unfold_monad;
  rewrite Hfile, Htruthy; cbn [negb];
  unfold uploadToSupabase; unfold_monad;
  rewrite Hstored;
  match goal with
  | |- context [enrich ?e ?f ?n ?w0] =>
      let ad := fresh "ad" in
      let evs := fresh "evs" in
      let Hrun := fresh "Hrun" in
      let Hnull := fresh "Hnull" in
      let Hbuilt := fresh "Hbuilt" in
      destruct (enrich_run e f n w0) as (ad & evs & Hrun & Hnull & Hbuilt);
      rewrite Hrun
  end;
  unfold insert_resume; unfold_monad; cbn [resumes add_events].

(** When the analysis fails (the request cannot be built, the HTTP call
    rejects, the call yields null), the failure is caught by the inner
    handler and logged, and the upload goes on: with the file stored and the
    insert accepted, the answer is 201 with the inserted row, whose
    [analysis_data] is null. *)
Lemma upload_analysis_failure_null
    (env : Env) (req : Request) (w : World) (file : string) (stored : UploadResult) :
  body_resumeFile req = Some file ->
  truthy_str file = true ->
  upload_reply env = Replied stored ->
  insert_refusal env (resumes w) = None ->
  analysis_fails env (body_fileName req) ->
  exists row w' evs detail nr,
    uploadResume env req w
    = (Normal {| status := 201; body := JRecord (Some row) |}, w') /\
    analysis_data row = None /\
    resume_url row = up_publicUrl stored /\
    storage_path row = Some (up_path stored) /\
    resumes w' = <[id row := row]> (resumes w) /\
    bucket w' = <[up_path stored := file]> (bucket w) /\
    trace w' = trace w
               ++ [EvUploadToSupabase file "resumes" (upload_key env (user_id req))]
               ++ evs
               ++ [EvConsoleError "AI analysis failed:" detail; EvInsertResume nr] /\
    new_analysis_data nr = None.
Proof.
  intros Hfile Htruthy Hstored Hinsert Hfails.
  upload_to_insert Hfile Htruthy Hstored.
  rewrite Hinsert.
  destruct (Hnull Hfails) as (-> & evs0 & detail & ->).
  eexists _, _, evs0, detail, _.
  split; [reflexivity |].
  do 5 (split; [reflexivity |]).
  split; [trace_norm; reflexivity | reflexivity].
Qed.

(** A reply that is an object, even one without any expected field, is not
    a failure: every field takes its default and the base score is stored. *)
Example upload_blank_reply_defaults :
  exists row w',
    uploadResume env_blank_reply req_upload world_empty
    = (Normal {| status := 201; body := JRecord (Some row) |}, w') /\
    analysis_data row
    = Some {| ad_skills := [];
              ad_categorized_skills := [];
              ad_experience_years := 0;
              ad_education := [];
              ad_certifications := [];
              ad_summary := "";
              ad_score := 50;
              ad_analyzed_at := "2024-05-01T10:00:00.000Z" |}.
Proof. eexists _, _. split; vm_compute; reflexivity. Qed.

(** C2, as stated, fails for a malformed response. A reply of the wrong
    shape is a non-null [response.data]: the client returns it unchecked,
    reading its missing fields throws nothing, and the row is inserted with
    a non-null [analysis_data] made of the defaults and the base score. *)
Lemma upload_malformed_reply_not_null :
  analyze_reply env_blank_reply = Replied (Some analysis_blank) /\
  exists row w',
    uploadResume env_blank_reply req_upload world_empty
    = (Normal {| status := 201; body := JRecord (Some row) |}, w') /\
    ad_score <$> analysis_data row = Some 50 /\
    analysis_data row <> None.
Proof.
  split; [reflexivity |].
  eexists _, _. split; [vm_compute; reflexivity |].
  split; [reflexivity | discriminate].
Qed.

(** C2, amended. With the file stored and the insert accepted: when the
    analysis request cannot be built (no file name), the HTTP call rejects
    (timeout, network error, error status) or the call yields null, the
    exception is caught by the inner handler and logged, and the answer is
    201 with the inserted row's [analysis_data] null. A response of the
    wrong shape is not such a failure: whenever the call yields a non-null
    body, the answer is 201 with a non-null [analysis_data] built from it,
    the missing fields taking their defaults; for a body with none of the
    expected fields that is the empty analysis with score 50. *)
Theorem upload_analysis_failure_or_wrong_shape
    (env : Env) (req : Request) (w : World) (file : string) (stored : UploadResult) :
  body_resumeFile req = Some file ->
  truthy_str file = true ->
  upload_reply env = Replied stored ->
  insert_refusal env (resumes w) = None ->
  (analysis_fails env (body_fileName req) ->
   exists row w' evs detail nr,
     uploadResume env req w
     = (Normal {| status := 201; body := JRecord (Some row) |}, w') /\
     analysis_data row = None /\
     resume_url row = up_publicUrl stored /\
     storage_path row = Some (up_path stored) /\
     resumes w' = <[id row := row]> (resumes w) /\
     bucket w' = <[up_path stored := file]> (bucket w) /\
     trace w' = trace w
                ++ [EvUploadToSupabase file "resumes" (upload_key env (user_id req))]
                ++ evs
                ++ [EvConsoleError "AI analysis failed:" detail; EvInsertResume nr] /\
     new_analysis_data nr = None)
  /\
  (forall f a,
      body_fileName req = Some f ->
      analyze_reply env = Replied (Some a) ->
      exists row w',
        uploadResume env req w
        = (Normal {| status := 201; body := JRecord (Some row) |}, w') /\
        analysis_data row = Some (build_analysisData env a))
  /\
  build_analysisData env analysis_blank
  = {| ad_skills := [];
       ad_categorized_skills := [];
       ad_experience_years := 0;
       ad_education := [];
       ad_certifications := [];
       ad_summary := "";
       ad_score := 50;
       ad_analyzed_at := date_iso env |}.
Proof.
  intros Hfile Htruthy Hstored Hinsert. split; [| split].
  - intros Hfails.
    exact (upload_analysis_failure_null env req w file stored
             Hfile Htruthy Hstored Hinsert Hfails).
  - intros f a Hname Hreply.
    upload_to_insert Hfile Htruthy Hstored.
    rewrite Hinsert. rewrite (Hbuilt f a Hname Hreply).
    eexists _, _. split; reflexivity.
  - reflexivity.
Qed.

Lemma upload_analysis_failure_or_wrong_shape_witness :
  exists row w',
    uploadResume env_service_down req_upload world_empty
    = (Normal {| status := 201; body := JRecord (Some row) |}, w') /\
    analysis_data row = None.
Proof.
  destruct (upload_analysis_failure_or_wrong_shape env_service_down req_upload world_empty
              "data:application/pdf;base64,JVBERi0x" stored_u1
              eq_refl eq_refl eq_refl eq_refl)
    as (Hfail & _ & _).
  destruct Hfail as (row & w' & _ & _ & _ & Hrun & Hnull & _).
  - right. left. eexists. reflexivity.
  - exists row, w'. split; assumption.
Defined.

(** Every outcome of a refused insert: the storage deletion is called for
    the path just written, right after the insert, and no row is added; the
    answer is 400 with the store's message when the call returns, and 500
    with the delete's message should the call throw. *)
Lemma upload_refused_insert_outcomes
    (env : Env) (req : Request) (w : World) (file : string) (stored : UploadResult)
    (msg : string) :
  body_resumeFile req = Some file ->
  truthy_str file = true ->
  upload_reply env = Replied stored ->
  insert_refusal env (resumes w) = Some msg ->
  exists resp w' evs nr tail,
    uploadResume env req w = (Normal resp, w') /\
    resumes w' = resumes w /\
    trace w' = trace w
               ++ [EvUploadToSupabase file "resumes" (upload_key env (user_id req))]
               ++ evs
               ++ [EvInsertResume nr; EvDeleteFromSupabase (up_path stored)]
               ++ tail /\
    match delete_reply env with
    | Removed =>
        resp = {| status := 400; body := JMessage msg |} /\
        bucket w' !! up_path stored = None /\
        tail = []
    | NotRemoved =>
        resp = {| status := 400; body := JMessage msg |} /\
        bucket w' !! up_path stored = Some file /\
        tail = []
    | DeleteRejected e =>
        resp = {| status := 500; body := JServerError "Server error" (message e) |} /\
        bucket w' !! up_path stored = Some file /\
        tail = [EvConsoleError "uploadResume error:" (message e)]
    end.
Proof.
  intros Hfile Htruthy Hstored Hinsert.
  upload_to_insert Hfile Htruthy Hstored.
  rewrite Hinsert. cbn [error db_err].
  unfold deleteFromSupabase. unfold_monad.
  destruct (delete_reply env) as [| |e]; cbn.
  - eexists _, _, evs, _, [].
    split; [reflexivity |]. split; [reflexivity |].
    split; [trace_norm; reflexivity |].
    split; [reflexivity |]. split; [apply lookup_delete_eq | reflexivity].
  - eexists _, _, evs, _, [].
    split; [reflexivity |]. split; [reflexivity |].
    split; [trace_norm; reflexivity |].
    split; [reflexivity |]. split; [apply lookup_insert_eq | reflexivity].
  - eexists _, _, evs, _, [_].
    split; [reflexivity |]. split; [reflexivity |].
    split; [trace_norm; reflexivity |].
    split; [reflexivity |]. split; [apply lookup_insert_eq | reflexivity].
Qed.

(** C1. When the insert fails after the object was stored, the handler
    deletes the object it just stored: the storage deletion is called for
    the path the write returned, right after the insert, and no row is
    added. The operation fails with 400 and the store's error message. A
    failure of that deletion stays inside the storage helper, which by the
    spec logs it and does not raise: the object is then still in the
    bucket, and the caller receives the store's message all the same. *)
Theorem upload_refused_insert_surfaces_db_error
    (env : Env) (req : Request) (w : World) (file : string) (stored : UploadResult)
    (msg : string) :
  body_resumeFile req = Some file ->
  truthy_str file = true ->
  upload_reply env = Replied stored ->
  insert_refusal env (resumes w) = Some msg ->
  delete_does_not_raise env ->
  exists w' evs nr,
    uploadResume env req w
    = (Normal {| status := 400; body := JMessage msg |}, w') /\
    resumes w' = resumes w /\
    trace w' = trace w
               ++ [EvUploadToSupabase file "resumes" (upload_key env (user_id req))]
               ++ evs
               ++ [EvInsertResume nr; EvDeleteFromSupabase (up_path stored)] /\
    (delete_reply env = Removed -> bucket w' !! up_path stored = None) /\
    (delete_reply env = NotRemoved -> bucket w' !! up_path stored = Some file).
Proof.
  intros Hfile Htruthy Hstored Hinsert Hquiet.
  destruct (upload_refused_insert_outcomes env req w file stored msg
              Hfile Htruthy Hstored Hinsert)
    as (resp & w' & evs & nr & tail & Hrun & Htable & Htrace & Hrest).
  unfold delete_does_not_raise in Hquiet.
  destruct (delete_reply env) as [| |e]; [| | destruct Hquiet];
    destruct Hrest as (-> & Hbucket & ->);
    exists w', evs, nr;
    (split; [exact Hrun |]); (split; [exact Htable |]);
    (split; [rewrite Htrace, app_nil_r; reflexivity |]);
    (split; intros Hwhich; [exact Hbucket || discriminate Hwhich
                           | exact Hbucket || discriminate Hwhich]).
Qed.

Lemma upload_refused_insert_surfaces_db_error_witness :
  exists w',
    uploadResume (env_insert_fails NotRemoved) req_upload world_empty
    = (Normal {| status := 400; body := JMessage "insert failed" |}, w') /\
    bucket w' !! "resumes/resume_u1_1700"
    = Some "data:application/pdf;base64,JVBERi0x".
Proof.
  destruct (upload_refused_insert_surfaces_db_error (env_insert_fails NotRemoved)
              req_upload world_empty "data:application/pdf;base64,JVBERi0x" stored_u1
              "insert failed" eq_refl eq_refl eq_refl eq_refl I)
    as (w' & _ & _ & Hrun & _ & _ & _ & Hkept).
  exists w'. split; [exact Hrun |]. apply Hkept. reflexivity.
Defined.

(** ** The score invariant of stored rows *)

Lemma analysis_fails_or_answers (env : Env) (fn : option string) :
  analysis_fails env fn \/
  exists f a, fn = Some f /\ analyze_reply env = Replied (Some a).
Proof.
  unfold analysis_fails.
  destruct fn as [f|]; [| auto].
  destruct (analyze_reply env) as [[a|]|e]; eauto 6.
Qed.

(** What [uploadResume] does to the table: nothing, or one new row whose
    analysis data is null or built from the service's answer. *)
Lemma uploadResume_resumes (env : Env) (req : Request) (w : World) :
  resumes (uploadResume env req w).2 = resumes w \/
  exists nr,
    resumes (uploadResume env req w).2
    = <[db_new_id env := row_of_new env nr]> (resumes w) /\
    (new_analysis_data nr = None \/
     exists a, analyze_reply env = Replied (Some a) /\
               new_analysis_data nr = Some (build_analysisData env a)).
Proof.
  destruct (body_resumeFile req) as [file|] eqn:Hfile.
  2: { left. unfold uploadResume. unfold_monad. rewrite Hfile. reflexivity. }
  destruct (truthy_str file) eqn:Htruthy.
  2: { left. unfold uploadResume. unfold_monad. rewrite Hfile, Htruthy. reflexivity. }
  destruct (upload_reply env) as [stored|e] eqn:Hstored.
  2: { left. unfold uploadResume. unfold_monad. rewrite Hfile, Htruthy. cbn [negb].
       unfold uploadToSupabase. unfold_monad. rewrite Hstored. reflexivity. }
  upload_to_insert Hfile Htruthy Hstored.
  destruct (insert_refusal env (resumes w)) as [msg|] eqn:Hinsert.
  - left. cbn [error db_err]. unfold deleteFromSupabase. unfold_monad.
    destruct (delete_reply env); reflexivity.
  - right. eexists. split; [reflexivity |]. cbn [new_analysis_data].
    destruct (analysis_fails_or_answers env (body_fileName req)) as [Hf|(f & a & Hf & Ha)].
    + left. apply Hnull, Hf.
    + right. exists a. split; [exact Ha | exact (Hbuilt f a Hf Ha)].
Qed.

(** What [updateResumeAnalysis] does to the table: nothing, or the
    caller's analysis data written over that of an existing row. *)
Lemma updateResumeAnalysis_resumes (env : Env) (req : Request) (w : World) :
  resumes (updateResumeAnalysis env req w).2 = resumes w \/
  exists row,
    resumes w !! param_resumeId req = Some row /\
    candidate_id row = user_id req /\
    resumes (updateResumeAnalysis env req w).2
    = <[param_resumeId req := with_analysis row (body_analysisData req)]> (resumes w).
Proof.
  unfold updateResumeAnalysis, update_analysis. unfold_monad. cbn [resumes add_events].
  destruct (db_fault env OpUpdate); [left; reflexivity |].
  destruct (resumes w !! param_resumeId req) as [row|] eqn:Hrow; [| left; reflexivity].
  destruct (String.eqb (candidate_id row) (user_id req)) eqn:Hown; [| left; reflexivity].
  right. exists row. apply String.eqb_eq in Hown. auto.
Qed.

Lemma build_analysisData_score_ok (env : Env) (a : Analysis) :
  -25 <= experienceYears a ->
  0 <= ad_score (build_analysisData env a) <= 100.
Proof.
  intros Hy. cbn [ad_score build_analysisData].
  rewrite calculateOverallScore_spec. unfold spec_score.
  pose proof (skillCount_nonneg a). lia.
Qed.

(** C5, as stated, fails on both writing paths: the update handler stores
    whatever score the caller sends, and the upload handler stores a score
    below zero when the service reports fewer than -25 years. *)
Lemma score_invariant_broken :
  score_in_range (resumes world_one) /\
  ~ score_in_range
      (resumes (updateResumeAnalysis env_ok (req_r1 "u1" (Some analysis_data_150))
                  world_one).2) /\
  score_in_range (resumes world_empty) /\
  ~ score_in_range (resumes (uploadResume env_minus_thirty req_upload world_empty).2).
Proof.
  split; [| split; [| split]].
  - apply map_Forall_singleton. exact I.
  - intros H.
    specialize (H "r1" (with_analysis row_r1 (Some analysis_data_150))).
    unfold row_score_ok in H. cbn in H.
    assert (Hin : 0 <= 150 <= 100) by (apply H; vm_compute; reflexivity).
    lia.
  - apply map_Forall_empty.
  - intros H.
    pose (nr := {| new_candidate_id := "u1";
                   new_resume_url := up_publicUrl stored_u1;
                   new_storage_path := up_path stored_u1;
                   new_file_name := "resume.pdf";
                   new_file_size := 4;
                   new_analysis_data :=
                     Some (build_analysisData env_minus_thirty analysis_minus_thirty) |}).
    specialize (H "r9" (row_of_new env_minus_thirty nr)).
    unfold row_score_ok in H. cbn in H.
    assert (Hin : 0 <= -10 <= 100) by (apply H; vm_compute; reflexivity).
    lia.
Qed.

(** C5, amended. Starting from a table that satisfies the invariant:
    the upload path keeps it whenever the service does not report fewer
    than -25 years of experience (so for every non-negative value); the
    update path keeps it whenever the caller's analysis data is null or
    carries a score within [0,100]; and the update path stores the
    caller's analysis data as given, without looking at the score. *)
Theorem score_invariant_preserved (env : Env) (req : Request) (w : World) :
  score_in_range (resumes w) ->
  ((forall a, analyze_reply env = Replied (Some a) -> -25 <= experienceYears a) ->
   score_in_range (resumes (uploadResume env req w).2)) /\
  ((forall ad, body_analysisData req = Some ad -> 0 <= ad_score ad <= 100) ->
   score_in_range (resumes (updateResumeAnalysis env req w).2)) /\
  (forall row,
      db_fault env OpUpdate = None ->
      resumes w !! param_resumeId req = Some row ->
      candidate_id row = user_id req ->
      resumes (updateResumeAnalysis env req w).2 !! param_resumeId req
      = Some (with_analysis row (body_analysisData req))).
Proof.
  intros Hinv. split; [| split].
  - intros Hyears.
    destruct (uploadResume_resumes env req w) as [-> | (nr & -> & Had)]; [exact Hinv |].
    apply map_Forall_insert_2; [| exact Hinv].
    unfold row_score_ok. cbn [analysis_data row_of_new].
    destruct Had as [-> | (a & Ha & ->)]; [exact I |].
    apply build_analysisData_score_ok, Hyears, Ha.
  - intros Hscore.
    destruct (updateResumeAnalysis_resumes env req w) as [-> | (row & _ & _ & ->)];
      [exact Hinv |].
    apply map_Forall_insert_2; [| exact Hinv].
    unfold row_score_ok. cbn [analysis_data with_analysis].
    destruct (body_analysisData req) as [ad|]; [apply Hscore; reflexivity | exact I].
  - intros row Hfault Hrow Hown.
    unfold updateResumeAnalysis, update_analysis. unfold_monad. cbn [resumes add_events].
    rewrite Hfault, Hrow, Hown, String.eqb_refl. cbn.
    apply lookup_insert_eq.
Qed.

Lemma score_invariant_preserved_witness :
  score_in_range (resumes (uploadResume env_ok req_upload world_one).2) /\
  resumes (updateResumeAnalysis env_ok (req_r1 "u1" (Some analysis_data_150)) world_one).2
    !! "r1"
  = Some (with_analysis row_r1 (Some analysis_data_150)).
Proof.
  assert (Hinv : score_in_range (resumes world_one)).
  { apply map_Forall_singleton. exact I. }
  split.
  - apply (proj1 (score_invariant_preserved env_ok req_upload world_one Hinv)).
    intros a Ha. injection Ha as <-. vm_compute. discriminate.
  - apply (proj2 (proj2 (score_invariant_preserved env_ok
                           (req_r1 "u1" (Some analysis_data_150)) world_one Hinv))).
    + reflexivity.
    + reflexivity.
    + reflexivity.
Defined.

(** ** Delete *)

(** C7. When the lookup scoped to (id, candidate) finds no row, because
    there is none or it belongs to someone else, the answer is 404 and the
    only external call made is that lookup: storage deletion is never
    called. When the row is there, the row is deleted first and the stored
    object after it; however the storage deletion settles (object removed,
    not removed, or the call throwing), the row stays deleted. *)
Theorem deleteResume_not_found_or_row_first (env : Env) (req : Request) (w : World) :
  ((forall row, resumes w !! param_resumeId req = Some row ->
                candidate_id row <> user_id req) ->
   deleteResume env req w
   = (Normal {| status := 404; body := JMessage "Resume not found" |},
      add_events w [EvSelectResume (param_resumeId req) (Some (user_id req))]))
  /\
  (forall row,
      resumes w !! param_resumeId req = Some row ->
      candidate_id row = user_id req ->
      db_fault env OpSelectResume = None ->
      db_fault env OpDelete = None ->
      exists resp w' tail,
        deleteResume env req w = (Normal resp, w') /\
        resumes w' = delete (param_resumeId req) (resumes w) /\
        resumes w' !! param_resumeId req = None /\
        trace w' = trace w
                   ++ [EvSelectResume (param_resumeId req) (Some (user_id req));
                       EvDeleteResume (param_resumeId req) (user_id req)]
                   ++ tail /\
        match storage_path row with
        | Some p =>
            if truthy_str p
            then match delete_reply env with
                 | DeleteRejected e =>
                     tail = [EvDeleteFromSupabase p;
                             EvConsoleError "deleteResume error:" (message e)] /\
                     resp = {| status := 500; body := JMessage "Server error" |}
                 | _ =>
                     tail = [EvDeleteFromSupabase p] /\
                     resp = {| status := 200;
                               body := JMessage "Resume deleted successfully" |}
                 end
            else tail = [] /\
                 resp = {| status := 200; body := JMessage "Resume deleted successfully" |}
        | None =>
            tail = [] /\
            resp = {| status := 200; body := JMessage "Resume deleted successfully" |}
        end).
Proof.
  split.
  - intros Hscope. unfold deleteResume, select_resume. unfold_monad.
    cbn [resumes add_events].
    destruct (db_fault env OpSelectResume); [reflexivity |].
    destruct (resumes w !! param_resumeId req) as [row|] eqn:Hrow; [| reflexivity].
    destruct (String.eqb (candidate_id row) (user_id req)) eqn:Hown; [| reflexivity].
    apply String.eqb_eq in Hown. destruct (Hscope row eq_refl Hown).
  - intros row Hrow Hown Hsel Hdel.
    unfold deleteResume, select_resume, delete_resume. unfold_monad.
    repeat (progress (cbn [resumes add_events error data db_ok];
                      rewrite ?Hsel, ?Hdel, ?Hrow, ?Hown, ?String.eqb_refl)).
    unfold deleteFromSupabase. unfold_monad.
    destruct (storage_path row) as [p|]; [destruct (truthy_str p) |].
    + destruct (delete_reply env) as [| |e]; cbn;
        eexists _, _, _; (split; [reflexivity |]);
        (split; [reflexivity |]); (split; [apply lookup_delete_eq |]);
        (split; [trace_norm; reflexivity |]); split; reflexivity.
    + eexists _, _, _; (split; [reflexivity |]);
        (split; [reflexivity |]); (split; [apply lookup_delete_eq |]);
        (split; [trace_norm; reflexivity |]); split; reflexivity.
    + eexists _, _, _; (split; [reflexivity |]);
        (split; [reflexivity |]); (split; [apply lookup_delete_eq |]);
        (split; [trace_norm; reflexivity |]); split; reflexivity.
Qed.

Lemma deleteResume_not_found_or_row_first_witness :
  deleteResume env_ok (req_r1 "u2" None) world_one
  = (Normal {| status := 404; body := JMessage "Resume not found" |},
     add_events world_one [EvSelectResume "r1" (Some "u2")]) /\
  exists resp w',
    deleteResume env_delete_rejected (req_r1 "u1" None) world_one = (Normal resp, w') /\
    resumes w' !! "r1" = None.
Proof.
  split.
  - apply (proj1 (deleteResume_not_found_or_row_first env_ok (req_r1 "u2" None) world_one)).
    intros row Hrow. vm_compute in Hrow. injection Hrow as <-. discriminate.
  - destruct (proj2 (deleteResume_not_found_or_row_first env_delete_rejected
                       (req_r1 "u1" None) world_one) row_r1)
      as (resp & w' & _ & Hrun & _ & Hgone & _).
    + reflexivity.
    + reflexivity.
    + reflexivity.
    + reflexivity.
    + exists resp, w'. split; assumption.
Defined.

(** ** Get-one *)

(** C8. Get-one fetches the row by id. A caller whose profile says
    'candidate' and who is not the row's owner gets 403; a caller whose
    profile says anything else (a reviewer type) gets 200 with the row,
    owner or not. *)
Theorem getResume_ownership
    (env : Env) (req : Request) (w : World) (row : ResumeRow) (p : Profile) :
  db_fault env OpSelectResume = None ->
  db_fault env OpSelectProfile = None ->
  resumes w !! param_resumeId req = Some row ->
  profiles w !! user_id req = Some p ->
  (user_type p = Some "candidate" ->
   candidate_id row <> user_id req ->
   (getResume env req w).1 = Normal {| status := 403; body := JMessage "Unauthorized" |})
  /\
  (forall t,
      user_type p = Some t ->
      t <> "candidate" ->
      (getResume env req w).1 = Normal {| status := 200; body := JRecord (Some row) |}).
Proof.
  intros Hsel Hprof Hrow Hp.
  unfold getResume, select_resume, select_profile. unfold_monad.
  repeat (progress (cbn [resumes profiles add_events error data db_ok];
                    rewrite ?Hsel, ?Hrow, ?Hprof, ?Hp)).
  split.
  - intros -> Hother. cbn.
    apply String.eqb_neq in Hother. rewrite Hother. reflexivity.
  - intros t -> Ht. apply String.eqb_neq in Ht. rewrite Ht. reflexivity.
Qed.

Lemma getResume_ownership_witness :
  (getResume env_ok (req_r1 "u2" None) world_one).1
  = Normal {| status := 403; body := JMessage "Unauthorized" |}.
Proof.
  apply (proj1 (getResume_ownership env_ok (req_r1 "u2" None) world_one row_r1
                  {| user_type := Some "candidate" |}
                  eq_refl eq_refl eq_refl eq_refl)).
  - reflexivity.
  - vm_compute. discriminate.
Defined.

(** C10. In get-one the ownership check applies only to a caller whose
    profile row is found with user_type 'candidate'. Every other caller gets
    200 with the row: a reviewer, a profile without a type, and also a
    caller whose profile lookup yields no row. *)
Theorem getResume_check_only_for_candidates
    (env : Env) (req : Request) (w : World) (row : ResumeRow) :
  db_fault env OpSelectResume = None ->
  resumes w !! param_resumeId req = Some row ->
  (~ caller_is_candidate env w (user_id req) ->
   (getResume env req w).1 = Normal {| status := 200; body := JRecord (Some row) |})
  /\
  (profiles w !! user_id req = None ->
   (getResume env req w).1 = Normal {| status := 200; body := JRecord (Some row) |}).
Proof.
  intros Hsel Hrow.
  assert (Hbypass : ~ caller_is_candidate env w (user_id req) ->
                    (getResume env req w).1
                    = Normal {| status := 200; body := JRecord (Some row) |}).
  { intros Hnot. unfold caller_is_candidate in Hnot.
    unfold getResume, select_resume, select_profile. unfold_monad.
    repeat (progress (cbn [resumes profiles add_events error data db_ok];
                      rewrite ?Hsel, ?Hrow)).
    destruct (db_fault env OpSelectProfile) as [msg|]; [reflexivity |].
    destruct (profiles w !! user_id req) as [[[t|]]|]; try reflexivity.
    cbn. destruct (String.eqb_spec t "candidate") as [->|Hne]; [| reflexivity].
    exfalso. apply Hnot. split; [reflexivity |]. eauto. }
  split; [exact Hbypass |].
  intros Hnone. apply Hbypass. intros (_ & p & Hp & _). congruence.
Qed.

Lemma getResume_check_only_for_candidates_witness :
  (getResume env_ok (req_r1 "u4" None) world_one).1
  = Normal {| status := 200; body := JRecord (Some row_r1) |}.
Proof.
  apply (proj2 (getResume_check_only_for_candidates env_ok (req_r1 "u4" None) world_one
                  row_r1 eq_refl eq_refl)).
  reflexivity.
Defined.

(** ** Worked examples *)

Example endsWith_pdf :
  endsWith "resume.pdf" ".pdf" = true /\ endsWith "resume.pdf.docx" ".pdf" = false.
Proof. split; reflexivity. Qed.

Example data_url_prefix_stripped :
  includes_comma "data:application/pdf;base64,JVBERi0x" = true /\
  split_comma_1 "data:application/pdf;base64,JVBERi0x" = "JVBERi0x" /\
  includes_comma "JVBERi0x" = false.
Proof. repeat split; reflexivity. Qed.

Example upload_key_u1 : upload_key env_ok "u1" = "resume_u1_1700".
Proof. reflexivity. Qed.

(** The specification's example: resume.pdf, five skills, three years, the
    service reachable: 201, the file stored, the analysis posted as a pdf,
    and a score of 66 in the inserted row. *)
Example upload_scores_66 :
  exists row w',
    uploadResume env_ok req_upload world_empty
    = (Normal {| status := 201; body := JRecord (Some row) |}, w') /\
    ad_score <$> analysis_data row = Some 66 /\
    bucket w' !! "resumes/resume_u1_1700" = Some "data:application/pdf;base64,JVBERi0x" /\
    trace w'
    = [EvUploadToSupabase "data:application/pdf;base64,JVBERi0x" "resumes" "resume_u1_1700";
       EvAxiosPost "http://localhost:8000/api/analyze/resume"
         (AnalyzeBody "Placeholder resume text" (Some "resume.pdf") "pdf") 30000;
       EvInsertResume
         {| new_candidate_id := "u1";
            new_resume_url := "https://store.example/resumes/resume_u1_1700";
            new_storage_path := "resumes/resume_u1_1700";
            new_file_name := "resume.pdf";
            new_file_size := 4;
            new_analysis_data := analysis_data row |}].
Proof. eexists _, _. repeat split; vm_compute; reflexivity. Qed.

(** * Further properties of the two files *)

(** ** The score calculator, continued *)

(** X1. The score never exceeds 100, whatever the analysis: the two bonuses
    are capped at 30 and 20, so the final [Math.min(score, 100)] never
    changes the value; and full marks need at least fifteen skills and at
    least ten years. *)
Theorem score_cap (a : Analysis) :
  calculateOverallScore a
  = 50 + Z.min (skillCount a * 2) 30 + Z.min (experienceYears a * 2) 20 /\
  calculateOverallScore a <= 100 /\
  (calculateOverallScore a = 100 <-> 15 <= skillCount a /\ 10 <= experienceYears a).
Proof.
  rewrite calculateOverallScore_spec. unfold spec_score.
  pose proof (skillCount_nonneg a). lia.
Qed.

(** ** Upload, continued *)

(** Closes the equation between two descriptions of the same run. *)
Ltac world_eq :=
  unfold add_events; cbn [resumes profiles bucket trace];
  f_equal; f_equal;
  repeat (progress (rewrite <- ?app_assoc; cbn [app]));
  reflexivity.

(** The enrichment step produces nothing but HTTP posts and log lines. *)
Lemma enrich_events (env : Env) (file : string) (fn : option string) (w : World) :
  exists ad evs,
    enrich env file fn w = (Normal ad, add_events w evs) /\
    Forall analysis_event evs /\
    (ad = None \/
     exists a, analyze_reply env = Replied (Some a) /\ ad = Some (build_analysisData env a)).
Proof.
  unfold enrich, extractTextFromBase64. run_client.
  destruct fn as [f|]; cbn.
  - destruct (analyze_reply env) as [[a|]|e] eqn:Hr; cbn.
    + eexists _, [_]. split; [reflexivity |].
      split; [repeat constructor | right; eauto].
    + eexists _, [_; _].
      split; [unfold add_events; cbn; rewrite <- app_assoc; reflexivity |].
      split; [repeat constructor | left; reflexivity].
    + eexists _, [_; _; _].
      split; [unfold add_events; cbn; rewrite <- !app_assoc; reflexivity |].
      split; [repeat constructor | left; reflexivity].
  - eexists _, [_; _].
    split; [unfold add_events; cbn; rewrite <- !app_assoc; reflexivity |].
    split; [repeat constructor | left; reflexivity].
Qed.

(** Every way [uploadResume] can run, with the answer and the world it
    leaves. *)
Lemma uploadResume_cases (env : Env) (req : Request) (w : World) :
  match body_resumeFile req with
  | None =>
      uploadResume env req w
      = (Normal {| status := 400; body := JMessage "Resume file is required" |}, w)
  | Some file =>
      if truthy_str file
      then
        match upload_reply env with
        | Failed e =>
            uploadResume env req w
            = (Normal {| status := 500;
                         body := JServerError "Server error" (message e) |},
               add_events w
                 [EvUploadToSupabase file "resumes" (upload_key env (user_id req));
                  EvConsoleError "uploadResume error:" (message e)])
        | Replied stored =>
            exists ad evs,
              Forall analysis_event evs /\
              (ad = None \/
               exists a, analyze_reply env = Replied (Some a) /\
                         ad = Some (build_analysisData env a)) /\
              let nr := upload_insertion req stored ad in
              let called :=
                EvUploadToSupabase file "resumes" (upload_key env (user_id req))
                :: evs ++ [EvInsertResume nr] in
              match insert_refusal env (resumes w) with
              | None =>
                  uploadResume env req w
                  = (Normal {| status := 201;
                               body := JRecord (Some (row_of_new env nr)) |},
                     {| resumes := <[db_new_id env := row_of_new env nr]> (resumes w);
                        profiles := profiles w;
                        bucket := <[up_path stored := file]> (bucket w);
                        trace := trace w ++ called |})
              | Some msg =>
                  match delete_reply env with
                  | Removed =>
                      uploadResume env req w
                      = (Normal {| status := 400; body := JMessage msg |},
                         {| resumes := resumes w;
                            profiles := profiles w;
                            bucket := delete (up_path stored)
                                        (<[up_path stored := file]> (bucket w));
                            trace := trace w ++ called
                                     ++ [EvDeleteFromSupabase (up_path stored)] |})
                  | NotRemoved =>
                      uploadResume env req w
                      = (Normal {| status := 400; body := JMessage msg |},
                         {| resumes := resumes w;
                            profiles := profiles w;
                            bucket := <[up_path stored := file]> (bucket w);
                            trace := trace w ++ called
                                     ++ [EvDeleteFromSupabase (up_path stored)] |})
                  | DeleteRejected e =>
                      uploadResume env req w
                      = (Normal {| status := 500;
                                   body := JServerError "Server error" (message e) |},
                         {| resumes := resumes w;
                            profiles := profiles w;
                            bucket := <[up_path stored := file]> (bucket w);
                            trace := trace w ++ called
                                     ++ [EvDeleteFromSupabase (up_path stored);
                                         EvConsoleError "uploadResume error:"
                                           (message e)] |})
                  end
              end
        end
      else
        uploadResume env req w
        = (Normal {| status := 400; body := JMessage "Resume file is required" |}, w)
  end.
Proof.
  destruct (body_resumeFile req) as [file|] eqn:Hfile.
  2: { unfold uploadResume. unfold_monad. rewrite Hfile. reflexivity. }
  destruct (truthy_str file) eqn:Htruthy.
  2: { unfold uploadResume. unfold_monad. rewrite Hfile, Htruthy. reflexivity. }
  destruct (upload_reply env) as [stored|e] eqn:Hstored.
  2: { unfold uploadResume. unfold_monad. rewrite Hfile, Htruthy. cbn [negb].
       unfold uploadToSupabase. unfold_monad. rewrite Hstored.
       unfold add_events. cbn. rewrite <- app_assoc. reflexivity. }
  unfold uploadResume. unfold_monad. rewrite Hfile, Htruthy. cbn [negb].
  unfold uploadToSupabase. unfold_monad. rewrite Hstored.
  match goal with
  | |- context [enrich ?e ?f ?n ?w0] =>
      destruct (enrich_events e f n w0) as (ad & evs & Hrun & Hevs & Had)
  end.
  rewrite Hrun. exists ad, evs. split; [exact Hevs |]. split; [exact Had |].
  unfold insert_resume. unfold_monad. cbn [resumes add_events].
  fold (upload_insertion req stored ad).
  destruct (insert_refusal env (resumes w)) as [msg|] eqn:Hinsert.
  - cbn [error db_err]. unfold deleteFromSupabase. unfold_monad.
    destruct (delete_reply env) as [| |e]; cbn [error db_err db_ok data]; world_eq.
  - cbn [error db_err db_ok data]. world_eq.
Qed.

Lemma insert_refusal_None (env : Env) (t : gmap string ResumeRow) :
  insert_refusal env t = None -> t !! db_new_id env = None.
Proof.
  unfold insert_refusal.
  destruct (db_fault env OpInsert); [discriminate |].
  destruct (t !! db_new_id env); [discriminate | reflexivity].
Qed.

Lemma insert_fresh_changes {A} (t : gmap string A) (k : string) (x : A) :
  t !! k = None -> <[k := x]> t <> t.
Proof.
  intros Hnone Heq.
  assert (Hk : <[k := x]> t !! k = t !! k) by (rewrite Heq; reflexivity).
  rewrite lookup_insert_eq, Hnone in Hk. discriminate.
Qed.

(** X2. When the storage write fails, the upload answers 500 "Server
    error" with the storage error's message; the analysis service is not
    contacted, no insert is attempted, and tables and bucket are as before. *)
Theorem upload_storage_failure
    (env : Env) (req : Request) (w : World) (file : string) (e : JsError) :
  body_resumeFile req = Some file ->
  truthy_str file = true ->
  upload_reply env = Failed e ->
  uploadResume env req w
  = (Normal {| status := 500; body := JServerError "Server error" (message e) |},
     add_events w
       [EvUploadToSupabase file "resumes" (upload_key env (user_id req));
        EvConsoleError "uploadResume error:" (message e)]).
Proof.
  intros Hfile Htruthy Hfailed.
  pose proof (uploadResume_cases env req w) as Hcases.
  rewrite Hfile, Htruthy, Hfailed in Hcases. exact Hcases.
Qed.

(** X3. The insert is the commit point of an upload. The handler always
    answers, with 201, 400 or 500; a row is added exactly when the answer
    is 201, and then the answer carries that row, which belongs to the
    caller and sits under a key that was free. *)
Theorem upload_commit_point (env : Env) (req : Request) (w : World) :
  exists resp w',
    uploadResume env req w = (Normal resp, w') /\
    (status resp = 201 \/ status resp = 400 \/ status resp = 500) /\
    (status resp = 201 <-> resumes w' <> resumes w) /\
    (status resp = 201 ->
     exists row,
       body resp = JRecord (Some row) /\
       candidate_id row = user_id req /\
       resumes w !! id row = None /\
       resumes w' = <[id row := row]> (resumes w)).
Proof.
  pose proof (uploadResume_cases env req w) as Hcases.
  destruct (body_resumeFile req) as [file|].
  2: { eexists _, _. split; [exact Hcases |]. cbn.
       split; [auto |]. split; [split; [discriminate | congruence] | discriminate]. }
  destruct (truthy_str file).
  2: { eexists _, _. split; [exact Hcases |]. cbn.
       split; [auto |]. split; [split; [discriminate | congruence] | discriminate]. }
  destruct (upload_reply env) as [stored|e].
  2: { eexists _, _. split; [exact Hcases |]. cbn.
       split; [auto |]. split; [split; [discriminate | congruence] | discriminate]. }
  destruct Hcases as (ad & evs & _ & _ & Hcases). cbn zeta in Hcases.
  destruct (insert_refusal env (resumes w)) as [msg|] eqn:Hinsert.
  - destruct (delete_reply env) as [| |e];
      (eexists _, _; split; [exact Hcases |]; cbn;
       split; [auto |]; split; [split; [discriminate | congruence] | discriminate]).
  - apply insert_refusal_None in Hinsert.
    eexists _, _. split; [exact Hcases |]. cbn.
    split; [auto |]. split.
    + split; [intros _; apply insert_fresh_changes, Hinsert | reflexivity].
    + intros _. eexists. split; [reflexivity |]. cbn. auto.
Qed.

(** X4. An upload never touches what is already there: every existing row
    is still stored unchanged, profiles are untouched, and the bucket can
    only differ at the path the storage write returned. *)
Theorem upload_keeps_existing (env : Env) (req : Request) (w : World) :
  (forall k row,
      resumes w !! k = Some row ->
      resumes (uploadResume env req w).2 !! k = Some row) /\
  profiles (uploadResume env req w).2 = profiles w /\
  (forall p,
      (forall stored, upload_reply env = Replied stored -> p <> up_path stored) ->
      bucket (uploadResume env req w).2 !! p = bucket w !! p).
Proof.
  pose proof (uploadResume_cases env req w) as Hcases.
  destruct (body_resumeFile req) as [file|].
  2: { rewrite Hcases. cbn. auto. }
  destruct (truthy_str file).
  2: { rewrite Hcases. cbn. auto. }
  destruct (upload_reply env) as [stored|e].
  2: { rewrite Hcases. cbn. auto. }
  destruct Hcases as (ad & evs & _ & _ & Hcases). cbn zeta in Hcases.
  destruct (insert_refusal env (resumes w)) as [msg|] eqn:Hinsert.
  - destruct (delete_reply env) as [| |e]; rewrite Hcases; cbn;
      (split; [auto |]; split; [reflexivity |]);
      intros p Hp; specialize (Hp stored eq_refl);
      rewrite ?(lookup_delete_ne _ _ _ (not_eq_sym Hp));
      rewrite (lookup_insert_ne _ _ _ _ (not_eq_sym Hp)); reflexivity.
  - apply insert_refusal_None in Hinsert. rewrite Hcases. cbn.
    split; [| split; [reflexivity |]].
    + intros k row Hk. rewrite lookup_insert_ne; [exact Hk | congruence].
    + intros p Hp. specialize (Hp stored eq_refl).
      rewrite (lookup_insert_ne _ _ _ _ (not_eq_sym Hp)). reflexivity.
Qed.

Lemma upload_storage_failure_witness :
  uploadResume env_storage_down req_upload world_empty
  = (Normal {| status := 500; body := JServerError "Server error" "storage unreachable" |},
     add_events world_empty
       [EvUploadToSupabase "data:application/pdf;base64,JVBERi0x" "resumes" "resume_u1_1700";
        EvConsoleError "uploadResume error:" "storage unreachable"]).
Proof.
  apply (upload_storage_failure env_storage_down req_upload world_empty
           "data:application/pdf;base64,JVBERi0x" storage_error);
    reflexivity.
Defined.

Lemma upload_commit_point_witness :
  exists resp w',
    uploadResume env_ok req_upload world_one = (Normal resp, w') /\
    (status resp = 201 <-> resumes w' <> resumes world_one).
Proof.
  destruct (upload_commit_point env_ok req_upload world_one)
    as (resp & w' & Hrun & _ & Hiff & _).
  exists resp, w'. split; assumption.
Defined.

Lemma upload_keeps_existing_witness :
  resumes (uploadResume env_ok req_upload world_one).2 !! "r1" = Some row_r1.
Proof.
  apply (proj1 (upload_keeps_existing env_ok req_upload world_one)).
  reflexivity.
Defined.

Lemma analysis_event_in (evs : list Event) (ev : Event) :
  Forall analysis_event evs -> ev ∈ evs -> analysis_event ev.
Proof. intros Hall Hin. rewrite Forall_forall in Hall. apply Hall, Hin. Qed.

(** X5. The order of an upload's external calls. If an insert is issued,
    the request began with a storage write that succeeded; and the storage
    deletion is called only for the path that write returned, and only
    when the insert was refused. *)
Theorem upload_call_order (env : Env) (req : Request) (w : World) :
  exists evs,
    trace (uploadResume env req w).2 = trace w ++ evs /\
    (forall nr,
        EvInsertResume nr ∈ evs ->
        exists file stored rest,
          upload_reply env = Replied stored /\
          evs = EvUploadToSupabase file "resumes" (upload_key env (user_id req)) :: rest) /\
    (forall p,
        EvDeleteFromSupabase p ∈ evs ->
        exists stored msg,
          upload_reply env = Replied stored /\
          p = up_path stored /\
          insert_refusal env (resumes w) = Some msg).
Proof.
  pose proof (uploadResume_cases env req w) as Hcases.
  destruct (body_resumeFile req) as [file|].
  2: { exists []. rewrite Hcases. cbn. rewrite app_nil_r.
       split; [reflexivity |]. split; intros ? Hin; inversion Hin. }
  destruct (truthy_str file).
  2: { exists []. rewrite Hcases. cbn. rewrite app_nil_r.
       split; [reflexivity |]. split; intros ? Hin; inversion Hin. }
  destruct (upload_reply env) as [stored|e].
  2: { eexists. rewrite Hcases. cbn. split; [reflexivity |].
       split; intros ? Hin;
         rewrite !elem_of_cons, elem_of_nil in Hin;
         destruct Hin as [Hin|[Hin|[]]]; discriminate. }
  destruct Hcases as (ad & evs0 & Hevs & _ & Hcases). cbn zeta in Hcases.
  assert (Hnoins : forall nr, EvInsertResume nr ∉ evs0).
  { intros nr Hin. apply (analysis_event_in _ _ Hevs Hin). }
  assert (Hnodel : forall p, EvDeleteFromSupabase p ∉ evs0).
  { intros p Hin. apply (analysis_event_in _ _ Hevs Hin). }
  destruct (insert_refusal env (resumes w)) as [msg|] eqn:Hinsert.
  - destruct (delete_reply env) as [| |e];
      (eexists; rewrite Hcases; cbn [snd trace]; split; [reflexivity |]; split;
       [ intros nr _; eexists _, _, _; split; reflexivity
       | intros p Hin;
         rewrite ?elem_of_app, ?elem_of_cons, ?elem_of_app, ?elem_of_cons,
           ?elem_of_nil in Hin;
         exists stored, msg; split; [reflexivity |]; split; [| reflexivity];
         repeat match goal with
           | H : _ \/ _ |- _ => destruct H
           | H : False |- _ => destruct H
           | H : EvDeleteFromSupabase _ = EvDeleteFromSupabase _ |- _ =>
               injection H as ->
           | H : EvDeleteFromSupabase _ ∈ evs0 |- _ => destruct (Hnodel _ H)
           | H : EvDeleteFromSupabase _ = _ |- _ => discriminate H
           end; reflexivity ]).
  - eexists. rewrite Hcases. cbn [snd trace]. split; [reflexivity |]. split.
    + intros nr _. eexists _, _, _. split; reflexivity.
    + intros p Hin.
      rewrite ?elem_of_cons, ?elem_of_app, ?elem_of_cons, ?elem_of_nil in Hin.
      repeat match goal with
        | H : _ \/ _ |- _ => destruct H
        | H : False |- _ => destruct H
        | H : EvDeleteFromSupabase _ ∈ evs0 |- _ => destruct (Hnodel _ H)
        | H : EvDeleteFromSupabase _ = _ |- _ => discriminate H
        end.
Qed.

Lemma upload_call_order_witness :
  exists evs,
    trace (uploadResume (env_insert_fails NotRemoved) req_upload world_empty).2
    = trace world_empty ++ evs /\
    (forall p, EvDeleteFromSupabase p ∈ evs -> p = "resumes/resume_u1_1700").
Proof.
  destruct (upload_call_order (env_insert_fails NotRemoved) req_upload world_empty)
    as (evs & Htrace & _ & Hdel).
  exists evs. split; [exact Htrace |].
  intros p Hin. destruct (Hdel p Hin) as (stored & msg & Hstored & -> & _).
  injection Hstored as <-. reflexivity.
Defined.

(** X6. A refused insert followed by a storage deletion that removes the
    object undoes the upload: when the path was free before, tables and
    bucket are exactly as before the request, and only the trace shows it. *)
Theorem upload_compensation_restores
    (env : Env) (req : Request) (w : World) (file : string) (stored : UploadResult)
    (msg : string) :
  body_resumeFile req = Some file ->
  truthy_str file = true ->
  upload_reply env = Replied stored ->
  insert_refusal env (resumes w) = Some msg ->
  delete_reply env = Removed ->
  bucket w !! up_path stored = None ->
  exists evs,
    uploadResume env req w
    = (Normal {| status := 400; body := JMessage msg |}, add_events w evs).
Proof.
  intros Hfile Htruthy Hstored Hinsert Hremoved Hfree.
  pose proof (uploadResume_cases env req w) as Hcases.
  rewrite Hfile, Htruthy, Hstored in Hcases.
  destruct Hcases as (ad & evs & _ & _ & Hcases). cbn zeta in Hcases.
  rewrite Hinsert, Hremoved in Hcases.
  eexists. rewrite Hcases. unfold add_events.
  rewrite (delete_insert_id _ _ _ Hfree). reflexivity.
Qed.

Lemma upload_compensation_restores_witness :
  exists evs,
    uploadResume (env_insert_fails Removed) req_upload world_one
    = (Normal {| status := 400; body := JMessage "insert failed" |},
       add_events world_one evs).
Proof.
  apply (upload_compensation_restores (env_insert_fails Removed) req_upload world_one
           "data:application/pdf;base64,JVBERi0x" stored_u1 "insert failed");
    reflexivity.
Defined.

Lemma build_analysisData_consistent (env : Env) (a : Analysis) :
  ad_score (build_analysisData env a) = score_of_stored (build_analysisData env a).
Proof.
  unfold score_of_stored. cbn [ad_score ad_skills ad_experience_years build_analysisData].
  rewrite calculateOverallScore_spec. reflexivity.
Qed.

(** What a 201 of [uploadResume] carries. *)
Lemma upload_201_row (env : Env) (req : Request) (w : World) (row : ResumeRow) :
  (uploadResume env req w).1 = Normal {| status := 201; body := JRecord (Some row) |} ->
  exists stored ad,
    upload_reply env = Replied stored /\
    (ad = None \/
     exists a, analyze_reply env = Replied (Some a) /\
               ad = Some (build_analysisData env a)) /\
    row = row_of_new env (upload_insertion req stored ad) /\
    resumes w !! db_new_id env = None /\
    resumes (uploadResume env req w).2
    = <[db_new_id env := row]> (resumes w).
Proof.
  intros H201.
  pose proof (uploadResume_cases env req w) as Hcases.
  destruct (body_resumeFile req) as [file|].
  2: { rewrite Hcases in H201. discriminate. }
  destruct (truthy_str file).
  2: { rewrite Hcases in H201. discriminate. }
  destruct (upload_reply env) as [stored|e].
  2: { rewrite Hcases in H201. discriminate. }
  destruct Hcases as (ad & evs & _ & Had & Hcases). cbn zeta in Hcases.
  destruct (insert_refusal env (resumes w)) as [msg|] eqn:Hinsert.
  - destruct (delete_reply env); rewrite Hcases in H201; discriminate.
  - rewrite Hcases in *. cbn in *. injection H201 as <-.
    exists stored, ad. repeat split; auto using insert_refusal_None.
Qed.

(** X7. In every row an upload inserts, the stored score agrees with the
    skills and the years of experience stored beside it: it is
    min(100, 50 + min(2 * #skills, 30) + min(2 * years, 20)) of those
    stored values. *)
Theorem upload_stored_score_consistent
    (env : Env) (req : Request) (w : World) (row : ResumeRow) (ad : AnalysisData) :
  (uploadResume env req w).1 = Normal {| status := 201; body := JRecord (Some row) |} ->
  analysis_data row = Some ad ->
  ad_score ad
  = Z.min 100 (50 + Z.min (js_length (ad_skills ad) * 2) 30
                  + Z.min (ad_experience_years ad * 2) 20).
Proof.
  intros H201 Had.
  destruct (upload_201_row env req w row H201) as (stored & ad0 & _ & Hbuilt & -> & _).
  cbn in Had. subst ad0.
  destruct Hbuilt as [Hnone | (a & _ & Hsome)]; [discriminate |].
  injection Hsome as ->. apply build_analysisData_consistent.
Qed.

Lemma upload_stored_score_consistent_witness :
  ad_score (build_analysisData env_ok analysis_senior) = 66.
Proof.
  rewrite (upload_stored_score_consistent env_ok req_upload world_empty row_r9
             (build_analysisData env_ok analysis_senior)).
  - reflexivity.
  - reflexivity.
  - reflexivity.
Defined.

(** X8. An upload that names no file never reaches the analysis service:
    building the request fails before anything is sent. With the object
    stored and the insert accepted, the row has null analysis data and
    takes the file name the storage write returned. *)
Theorem upload_without_fileName
    (env : Env) (req : Request) (w : World) (file : string) (stored : UploadResult) :
  body_resumeFile req = Some file ->
  truthy_str file = true ->
  body_fileName req = None ->
  upload_reply env = Replied stored ->
  insert_refusal env (resumes w) = None ->
  exists row w' m1 m2 nr,
    uploadResume env req w
    = (Normal {| status := 201; body := JRecord (Some row) |}, w') /\
    analysis_data row = None /\
    file_name row = up_fileName stored /\
    trace w' = trace w
               ++ [EvUploadToSupabase file "resumes" (upload_key env (user_id req));
                   EvConsoleError "Python API - Resume analysis error:" m1;
                   EvConsoleError "AI analysis failed:" m2;
                   EvInsertResume nr].
Proof.
  intros Hfile Htruthy Hname Hstored Hinsert.
  unfold uploadResume. unfold_monad. rewrite Hfile, Htruthy, Hname. cbn [negb].
  unfold uploadToSupabase. unfold_monad. rewrite Hstored.
  unfold enrich, extractTextFromBase64. run_client.
  unfold insert_resume. unfold_monad. cbn [resumes add_events].
  rewrite Hinsert. cbn.
  eexists _, _, _, _, _. split; [reflexivity |].
  split; [reflexivity |]. split; [reflexivity |].
  trace_norm. reflexivity.
Qed.

Lemma upload_without_fileName_witness :
  exists row w',
    uploadResume env_ok req_upload_unnamed world_empty
    = (Normal {| status := 201; body := JRecord (Some row) |}, w') /\
    analysis_data row = None /\
    file_name row = "resume_u1_1700".
Proof.
  destruct (upload_without_fileName env_ok req_upload_unnamed world_empty
              "JVBERi0x" stored_u1)
    as (row & w' & _ & _ & _ & Hrun & Hnull & Hname & _);
    try reflexivity.
  exists row, w'. auto.
Defined.

(** ** Get-one, continued *)

(** Every way [getResume] can run. *)
Lemma getResume_cases (env : Env) (req : Request) (w : World) :
  match db_fault env OpSelectResume, resumes w !! param_resumeId req with
  | None, Some row =>
      exists resp,
        getResume env req w
        = (Normal resp,
           add_events w [EvSelectResume (param_resumeId req) None;
                         EvSelectProfile (user_id req)]) /\
        ((resp = {| status := 403; body := JMessage "Unauthorized" |} /\
          caller_is_candidate env w (user_id req) /\
          candidate_id row <> user_id req) \/
         (resp = {| status := 200; body := JRecord (Some row) |} /\
          (~ caller_is_candidate env w (user_id req) \/
           candidate_id row = user_id req)))
  | _, _ =>
      getResume env req w
      = (Normal {| status := 404; body := JMessage "Resume not found" |},
         add_events w [EvSelectResume (param_resumeId req) None])
  end.
Proof.
  unfold getResume, select_resume, select_profile, caller_is_candidate. unfold_monad.
  cbn [resumes profiles add_events].
  destruct (db_fault env OpSelectResume) as [msg|]; [reflexivity |].
  destruct (resumes w !! param_resumeId req) as [row|]; [| reflexivity].
  repeat (progress (cbn [resumes profiles add_events error data db_ok])).
  destruct (db_fault env OpSelectProfile) as [msg|].
  { eexists. split; [cbn; world_eq |]. right. split; [reflexivity |].
    left. intros [Hf _]. discriminate. }
  destruct (profiles w !! user_id req) as [[[t|]]|] eqn:Hp; cbn.
  - destruct (String.eqb_spec t "candidate") as [->|Hne]; cbn.
    + destruct (String.eqb_spec (candidate_id row) (user_id req)) as [Hown|Hother]; cbn.
      * eexists. split; [world_eq |]. right. auto.
      * eexists. split; [world_eq |]. left. split; [reflexivity |].
        split; [| exact Hother]. split; [reflexivity |]. eauto.
    + eexists. split; [world_eq |]. right. split; [reflexivity |].
      left. intros (_ & p & Hp' & Ht). injection Hp' as <-. cbn in Ht. congruence.
  - eexists. split; [world_eq |]. right. split; [reflexivity |].
    left. intros (_ & p & Hp' & Ht). injection Hp' as <-. discriminate.
  - eexists. split; [world_eq |]. right. split; [reflexivity |].
    left. intros (_ & p & Hp' & _). discriminate.
Qed.

(** With the row found and owned by the caller, [getResume] answers 200. *)
Lemma getResume_cases_owner (env : Env) (req : Request) (w : World) (row : ResumeRow) :
  db_fault env OpSelectResume = None ->
  resumes w !! param_resumeId req = Some row ->
  candidate_id row = user_id req ->
  (getResume env req w).1 = Normal {| status := 200; body := JRecord (Some row) |}.
Proof.
  intros Hsel Hrow Hown. pose proof (getResume_cases env req w) as Hcases.
  rewrite Hsel, Hrow in Hcases.
  destruct Hcases as (resp & -> & [(_ & _ & Hother) | (-> & _)]).
  - contradiction.
  - reflexivity.
Qed.

(** With no row under the id, [getResume] answers 404 after one lookup. *)
Lemma getResume_cases_absent (env : Env) (req : Request) (w : World) :
  resumes w !! param_resumeId req = None ->
  getResume env req w
  = (Normal {| status := 404; body := JMessage "Resume not found" |},
     add_events w [EvSelectResume (param_resumeId req) None]).
Proof.
  intros Hnone. pose proof (getResume_cases env req w) as Hcases.
  rewrite Hnone in Hcases.
  destruct (db_fault env OpSelectResume); exact Hcases.
Qed.

(** X9. Get-one answers 404 when no row is stored under the id, and also
    when the lookup itself fails; in both cases after that one lookup: the
    caller's profile is never queried and nothing changes. *)
Theorem getResume_missing (env : Env) (req : Request) (w : World) :
  resumes w !! param_resumeId req = None \/
  (exists msg, db_fault env OpSelectResume = Some msg) ->
  getResume env req w
  = (Normal {| status := 404; body := JMessage "Resume not found" |},
     add_events w [EvSelectResume (param_resumeId req) None]).
Proof.
  intros Hwhy. pose proof (getResume_cases env req w) as Hcases.
  destruct Hwhy as [Hnone | (msg & Hfault)].
  - rewrite Hnone in Hcases. destruct (db_fault env OpSelectResume); exact Hcases.
  - rewrite Hfault in Hcases. exact Hcases.
Qed.

Lemma getResume_missing_witness :
  getResume env_ok (req_about "u1" "r7") world_one
  = (Normal {| status := 404; body := JMessage "Resume not found" |},
     add_events world_one [EvSelectResume "r7" None]).
Proof.
  apply (getResume_missing env_ok (req_about "u1" "r7") world_one).
  left. reflexivity.
Defined.

(** X10. The owner can always read their resume: when the row is found and
    belongs to the caller, the answer is 200 with the row, whatever the
    caller's profile says and even when the profile lookup fails; the
    handler made its two lookups and changed nothing. *)
Theorem getResume_owner (env : Env) (req : Request) (w : World) (row : ResumeRow) :
  db_fault env OpSelectResume = None ->
  resumes w !! param_resumeId req = Some row ->
  candidate_id row = user_id req ->
  getResume env req w
  = (Normal {| status := 200; body := JRecord (Some row) |},
     add_events w [EvSelectResume (param_resumeId req) None;
                   EvSelectProfile (user_id req)]).
Proof.
  intros Hsel Hrow Hown. pose proof (getResume_cases env req w) as Hcases.
  rewrite Hsel, Hrow in Hcases.
  destruct Hcases as (resp & -> & [(_ & _ & Hother) | (-> & _)]).
  - contradiction.
  - reflexivity.
Qed.

Lemma getResume_owner_witness :
  getResume env_ok (req_about "u1" "r1") world_one
  = (Normal {| status := 200; body := JRecord (Some row_r1) |},
     add_events world_one [EvSelectResume "r1" None; EvSelectProfile "u1"]).
Proof.
  apply (getResume_owner env_ok (req_about "u1" "r1") world_one row_r1); reflexivity.
Defined.

(** X11. Get-one only reads, and its answers are sound. It always answers
    with 200, 403 or 404 and leaves tables and bucket as they were; a 200
    carries the row stored under the requested id; a 403 is given only to
    a caller whose profile says 'candidate' and who does not own the row. *)
Theorem getResume_sound (env : Env) (req : Request) (w : World) :
  exists resp evs,
    getResume env req w = (Normal resp, add_events w evs) /\
    (status resp = 200 \/ status resp = 403 \/ status resp = 404) /\
    (status resp = 200 ->
     exists row,
       resumes w !! param_resumeId req = Some row /\
       body resp = JRecord (Some row)) /\
    (status resp = 403 ->
     exists row,
       resumes w !! param_resumeId req = Some row /\
       candidate_id row <> user_id req /\
       caller_is_candidate env w (user_id req)).
Proof.
  pose proof (getResume_cases env req w) as Hcases.
  destruct (db_fault env OpSelectResume) as [msg|].
  { eexists _, _. split; [exact Hcases |]. cbn.
    split; [auto |]. split; discriminate. }
  destruct (resumes w !! param_resumeId req) as [row|].
  2: { eexists _, _. split; [exact Hcases |]. cbn.
       split; [auto |]. split; discriminate. }
  destruct Hcases as (resp & Hrun & [(-> & Hcand & Hother) | (-> & _)]);
    eexists _, _; (split; [exact Hrun |]); cbn; (split; [auto |]); split;
    try discriminate; eauto.
Qed.

Lemma getResume_sound_witness :
  exists resp evs,
    getResume env_ok (req_about "u2" "r1") world_one = (Normal resp, add_events world_one evs) /\
    (status resp = 403 -> caller_is_candidate env_ok world_one "u2").
Proof.
  destruct (getResume_sound env_ok (req_about "u2" "r1") world_one)
    as (resp & evs & Hrun & _ & _ & H403).
  exists resp, evs. split; [exact Hrun |].
  intros Hs. destruct (H403 Hs) as (row & _ & _ & Hcand). exact Hcand.
Defined.

(** X12. Upload then read. After an upload answered 201 with a row, the
    uploader's get-one on that row's id answers 200 with the same row. *)
Theorem upload_then_get
    (env : Env) (req : Request) (w : World) (row : ResumeRow)
    (env2 : Env) (req2 : Request) :
  (uploadResume env req w).1 = Normal {| status := 201; body := JRecord (Some row) |} ->
  db_fault env2 OpSelectResume = None ->
  param_resumeId req2 = id row ->
  user_id req2 = user_id req ->
  (getResume env2 req2 (uploadResume env req w).2).1
  = Normal {| status := 200; body := JRecord (Some row) |}.
Proof.
  intros H201 Hsel Hid Huser.
  destruct (upload_201_row env req w row H201) as (stored & ad & _ & _ & Hrow & _ & Htable).
  apply getResume_cases_owner; [exact Hsel | |].
  - rewrite Htable, Hid, Hrow. cbn [id row_of_new]. apply lookup_insert_eq.
  - rewrite Huser, Hrow. reflexivity.
Qed.

Lemma upload_then_get_witness :
  (getResume env_ok (req_about "u1" "r9") (uploadResume env_ok req_upload world_one).2).1
  = Normal {| status := 200; body := JRecord (Some row_r9) |}.
Proof.
  apply (upload_then_get env_ok req_upload world_one row_r9 env_ok (req_about "u1" "r9"));
    reflexivity.
Defined.

(** ** Update-analysis *)

(** Every way [updateResumeAnalysis] can run. *)
Lemma updateResumeAnalysis_cases (env : Env) (req : Request) (w : World) :
  let called := [EvUpdateAnalysis (param_resumeId req) (user_id req)
                   (body_analysisData req)] in
  match db_fault env OpUpdate with
  | Some msg =>
      updateResumeAnalysis env req w
      = (Normal {| status := 400; body := JMessage msg |}, add_events w called)
  | None =>
      match resumes w !! param_resumeId req with
      | Some row =>
          if String.eqb (candidate_id row) (user_id req)
          then
            updateResumeAnalysis env req w
            = (Normal {| status := 200;
                         body := JRecord (Some (with_analysis row (body_analysisData req))) |},
               {| resumes := <[param_resumeId req :=
                                 with_analysis row (body_analysisData req)]> (resumes w);
                  profiles := profiles w;
                  bucket := bucket w;
                  trace := trace w ++ called |})
          else
            updateResumeAnalysis env req w
            = (Normal {| status := 400; body := JMessage PGRST116 |}, add_events w called)
      | None =>
          updateResumeAnalysis env req w
          = (Normal {| status := 400; body := JMessage PGRST116 |}, add_events w called)
      end
  end.
Proof.
  unfold updateResumeAnalysis, update_analysis. unfold_monad.
  cbn [resumes add_events].
  destruct (db_fault env OpUpdate) as [msg|]; [reflexivity |].
  destruct (resumes w !! param_resumeId req) as [row|]; [| reflexivity].
  destruct (String.eqb (candidate_id row) (user_id req)); reflexivity.
Qed.

(** X13. Update-analysis on a resume that is missing or belongs to
    somebody else answers 400 with the store's "no single row" message,
    and no row is changed. *)
Theorem update_out_of_scope (env : Env) (req : Request) (w : World) :
  db_fault env OpUpdate = None ->
  (forall row, resumes w !! param_resumeId req = Some row ->
               candidate_id row <> user_id req) ->
  updateResumeAnalysis env req w
  = (Normal {| status := 400; body := JMessage PGRST116 |},
     add_events w [EvUpdateAnalysis (param_resumeId req) (user_id req)
                     (body_analysisData req)]).
Proof.
  intros Hfault Hscope.
  pose proof (updateResumeAnalysis_cases env req w) as Hcases. cbn zeta in Hcases.
  rewrite Hfault in Hcases.
  destruct (resumes w !! param_resumeId req) as [row|]; [| exact Hcases].
  destruct (String.eqb_spec (candidate_id row) (user_id req)) as [Hown|_];
    [| exact Hcases].
  destruct (Hscope row eq_refl Hown).
Qed.

Lemma update_out_of_scope_witness :
  updateResumeAnalysis env_ok (req_r1 "u2" (Some analysis_data_70)) world_one
  = (Normal {| status := 400; body := JMessage PGRST116 |},
     add_events world_one [EvUpdateAnalysis "r1" "u2" (Some analysis_data_70)]).
Proof.
  apply (update_out_of_scope env_ok (req_r1 "u2" (Some analysis_data_70)) world_one).
  - reflexivity.
  - intros row Hrow. vm_compute in Hrow. injection Hrow as <-. discriminate.
Defined.

(** X14. A successful update-analysis with analysis data in the body
    replaces the analysis data of the one row: the answer is 200 with the
    updated row, which carries the caller's analysis data and the id,
    owner, url, storage path, file name and size of the old row; no other
    row changes, and profiles and bucket are untouched. *)
Theorem update_changes_only_analysis
    (env : Env) (req : Request) (w : World) (row : ResumeRow) (ad : AnalysisData) :
  db_fault env OpUpdate = None ->
  resumes w !! param_resumeId req = Some row ->
  candidate_id row = user_id req ->
  body_analysisData req = Some ad ->
  exists row' w',
    updateResumeAnalysis env req w
    = (Normal {| status := 200; body := JRecord (Some row') |}, w') /\
    analysis_data row' = Some ad /\
    (id row', candidate_id row', resume_url row', storage_path row',
     file_name row', file_size row')
    = (id row, candidate_id row, resume_url row, storage_path row,
       file_name row, file_size row) /\
    resumes w' !! param_resumeId req = Some row' /\
    (forall k, k <> param_resumeId req -> resumes w' !! k = resumes w !! k) /\
    profiles w' = profiles w /\
    bucket w' = bucket w.
Proof.
  intros Hfault Hrow Hown Hbody.
  pose proof (updateResumeAnalysis_cases env req w) as Hcases. cbn zeta in Hcases.
  rewrite Hfault, Hrow, Hown, String.eqb_refl, Hbody in Hcases.
  eexists _, _. split; [exact Hcases |]. cbn.
  split; [reflexivity |]. split; [reflexivity |].
  split; [apply lookup_insert_eq |].
  split; [| auto].
  intros k Hk. apply lookup_insert_ne. congruence.
Qed.

Lemma update_changes_only_analysis_witness :
  exists row' w',
    updateResumeAnalysis env_ok (req_r1 "u1" (Some analysis_data_70)) world_one
    = (Normal {| status := 200; body := JRecord (Some row') |}, w') /\
    analysis_data row' = Some analysis_data_70 /\
    file_name row' = "cv.pdf".
Proof.
  destruct (update_changes_only_analysis env_ok (req_r1 "u1" (Some analysis_data_70))
              world_one row_r1 analysis_data_70 eq_refl eq_refl eq_refl eq_refl)
    as (row' & w' & Hrun & Had & Hsame & _).
  exists row', w'. split; [exact Hrun |]. split; [exact Had |].
  injection Hsame as _ _ _ _ Hname _. exact Hname.
Defined.

(** X16. Update then read. After a successful update-analysis with
    analysis data in the body, the owner's get-one answers 200 with a row
    that carries that analysis data and is otherwise the resume it was:
    same id, owner, url, storage path, file name and size. *)
Theorem update_then_get
    (env : Env) (req : Request) (w : World) (row : ResumeRow) (ad : AnalysisData)
    (env2 : Env) (req2 : Request) :
  db_fault env OpUpdate = None ->
  resumes w !! param_resumeId req = Some row ->
  candidate_id row = user_id req ->
  body_analysisData req = Some ad ->
  db_fault env2 OpSelectResume = None ->
  param_resumeId req2 = param_resumeId req ->
  user_id req2 = user_id req ->
  exists row',
    (getResume env2 req2 (updateResumeAnalysis env req w).2).1
    = Normal {| status := 200; body := JRecord (Some row') |} /\
    analysis_data row' = Some ad /\
    (id row', candidate_id row', resume_url row', storage_path row',
     file_name row', file_size row')
    = (id row, candidate_id row, resume_url row, storage_path row,
       file_name row, file_size row).
Proof.
  intros Hfault Hrow Hown Hbody Hsel Hid Huser.
  pose proof (updateResumeAnalysis_cases env req w) as Hcases. cbn zeta in Hcases.
  rewrite Hfault, Hrow, Hown, String.eqb_refl, Hbody in Hcases.
  exists (with_analysis row (Some ad)). split; [| split; reflexivity].
  apply getResume_cases_owner; [exact Hsel | |].
  - rewrite Hcases, Hid. cbn [snd resumes]. apply lookup_insert_eq.
  - rewrite Huser. exact Hown.
Qed.

Lemma update_then_get_witness :
  exists row',
    (getResume env_ok (req_about "u1" "r1")
       (updateResumeAnalysis env_ok (req_r1 "u1" (Some analysis_data_70)) world_one).2).1
    = Normal {| status := 200; body := JRecord (Some row') |} /\
    analysis_data row' = Some analysis_data_70.
Proof.
  destruct (update_then_get env_ok (req_r1 "u1" (Some analysis_data_70)) world_one row_r1
              analysis_data_70 env_ok (req_about "u1" "r1")
              eq_refl eq_refl eq_refl eq_refl eq_refl eq_refl eq_refl)
    as (row' & Hrun & Had & _).
  exists row'. split; assumption.
Defined.

(** ** Delete, continued *)

(** Every way [deleteResume] can run. *)
Lemma deleteResume_scoped (env : Env) (req : Request) (w : World) :
  match db_fault env OpSelectResume, resumes w !! param_resumeId req with
  | None, Some row =>
      if String.eqb (candidate_id row) (user_id req)
      then
        exists resp w' tail,
          deleteResume env req w = (Normal resp, w') /\
          resumes w' = match db_fault env OpDelete with
                       | Some _ => resumes w
                       | None => delete (param_resumeId req) (resumes w)
                       end /\
          profiles w' = profiles w /\
          trace w' = trace w
                     ++ [EvSelectResume (param_resumeId req) (Some (user_id req));
                         EvDeleteResume (param_resumeId req) (user_id req)]
                     ++ tail /\
          let kept := resp = {| status := 200;
                                body := JMessage "Resume deleted successfully" |} /\
                      tail = [] /\ bucket w' = bucket w in
          match storage_path row with
          | Some p =>
              if truthy_str p
              then match delete_reply env with
                   | Removed =>
                       resp = {| status := 200;
                                 body := JMessage "Resume deleted successfully" |} /\
                       tail = [EvDeleteFromSupabase p] /\
                       bucket w' = delete p (bucket w)
                   | NotRemoved =>
                       resp = {| status := 200;
                                 body := JMessage "Resume deleted successfully" |} /\
                       tail = [EvDeleteFromSupabase p] /\
                       bucket w' = bucket w
                   | DeleteRejected e =>
                       resp = {| status := 500; body := JMessage "Server error" |} /\
                       tail = [EvDeleteFromSupabase p;
                               EvConsoleError "deleteResume error:" (message e)] /\
                       bucket w' = bucket w
                   end
              else kept
          | None => kept
          end
      else
        deleteResume env req w
        = (Normal {| status := 404; body := JMessage "Resume not found" |},
           add_events w [EvSelectResume (param_resumeId req) (Some (user_id req))])
  | _, _ =>
      deleteResume env req w
      = (Normal {| status := 404; body := JMessage "Resume not found" |},
         add_events w [EvSelectResume (param_resumeId req) (Some (user_id req))])
  end.
Proof.
  unfold deleteResume, select_resume, delete_resume. unfold_monad.
  cbn [resumes add_events].
  destruct (db_fault env OpSelectResume) as [msg|]; [reflexivity |].
  destruct (resumes w !! param_resumeId req) as [row|] eqn:Hrow; [| reflexivity].
  destruct (String.eqb (candidate_id row) (user_id req)) eqn:Hown; [| reflexivity].
  repeat (progress (cbn [resumes add_events error data db_ok];
                    rewrite ?Hrow, ?Hown)).
  unfold deleteFromSupabase. unfold_monad. cbn zeta.
  destruct (db_fault env OpDelete) as [msg|];
    (destruct (storage_path row) as [p|]; [destruct (truthy_str p) |]);
    try (destruct (delete_reply env) as [| |e]); cbn;
    eexists _, _, _; (split; [reflexivity |]); cbn;
    (split; [reflexivity |]); (split; [reflexivity |]);
    (split; [trace_norm; reflexivity |]); auto.
Qed.

(** X17. The handler does not look at the result of the row delete. When
    the store fails to execute it, the stored object is removed all the
    same and the answer is still 200 "Resume deleted successfully", while
    the row stays in the table, now pointing at an object that is gone. *)
Theorem delete_ignores_row_delete_error
    (env : Env) (req : Request) (w : World) (row : ResumeRow) (p msg : string) :
  db_fault env OpSelectResume = None ->
  db_fault env OpDelete = Some msg ->
  resumes w !! param_resumeId req = Some row ->
  candidate_id row = user_id req ->
  storage_path row = Some p ->
  truthy_str p = true ->
  delete_reply env = Removed ->
  exists w',
    deleteResume env req w
    = (Normal {| status := 200; body := JMessage "Resume deleted successfully" |}, w') /\
    resumes w' !! param_resumeId req = Some row /\
    bucket w' !! p = None.
Proof.
  intros Hsel Hdel Hrow Hown Hpath Htruthy Hremoved.
  pose proof (deleteResume_scoped env req w) as Hcases.
  rewrite Hsel, Hrow, Hown, String.eqb_refl in Hcases.
  destruct Hcases as (resp & w' & tail & Hrun & Htable & _ & _ & Hrest).
  cbn zeta in Hrest. rewrite Hpath, Htruthy, Hremoved in Hrest.
  destruct Hrest as (-> & _ & Hbucket).
  exists w'. split; [exact Hrun |]. split.
  - rewrite Htable, Hdel. exact Hrow.
  - rewrite Hbucket. apply lookup_delete_eq.
Qed.

Lemma delete_ignores_row_delete_error_witness :
  exists w',
    deleteResume env_row_delete_fails (req_about "u1" "r1") world_one
    = (Normal {| status := 200; body := JMessage "Resume deleted successfully" |}, w') /\
    resumes w' !! "r1" = Some row_r1 /\
    bucket w' !! "resumes/resume_u1_1600" = None.
Proof.
  apply (delete_ignores_row_delete_error env_row_delete_fails (req_about "u1" "r1")
           world_one row_r1 "resumes/resume_u1_1600" "delete failed");
    reflexivity.
Defined.

(** X18. Once deleted, gone for everybody. After a delete whose lookup and
    row delete the store executed, get-one on that id answers 404 for any
    caller, and a second delete answers 404 without calling the object
    store. *)
Theorem delete_then_gone
    (env : Env) (req : Request) (w : World) (row : ResumeRow)
    (env2 : Env) (req2 : Request) :
  db_fault env OpSelectResume = None ->
  db_fault env OpDelete = None ->
  resumes w !! param_resumeId req = Some row ->
  candidate_id row = user_id req ->
  param_resumeId req2 = param_resumeId req ->
  let w' := (deleteResume env req w).2 in
  getResume env2 req2 w'
  = (Normal {| status := 404; body := JMessage "Resume not found" |},
     add_events w' [EvSelectResume (param_resumeId req2) None]) /\
  deleteResume env2 req2 w'
  = (Normal {| status := 404; body := JMessage "Resume not found" |},
     add_events w' [EvSelectResume (param_resumeId req2) (Some (user_id req2))]).
Proof.
  intros Hsel Hdel Hrow Hown Hid w'.
  assert (Hgone : resumes w' !! param_resumeId req2 = None).
  { subst w'. pose proof (deleteResume_scoped env req w) as Hcases.
    rewrite Hsel, Hrow, Hown, String.eqb_refl in Hcases.
    destruct Hcases as (resp & w1 & tail & Hrun & Htable & _).
    rewrite Hrun. cbn [snd]. rewrite Htable, Hdel, Hid. apply lookup_delete_eq. }
  split.
  - apply getResume_cases_absent, Hgone.
  - pose proof (deleteResume_scoped env2 req2 w') as Hcases.
    rewrite Hgone in Hcases.
    destruct (db_fault env2 OpSelectResume); exact Hcases.
Qed.

Lemma delete_then_gone_witness :
  (getResume env_ok (req_about "u3" "r1")
     (deleteResume env_ok (req_about "u1" "r1") world_one).2).1
  = Normal {| status := 404; body := JMessage "Resume not found" |}.
Proof.
  rewrite (proj1 (delete_then_gone env_ok (req_about "u1" "r1") world_one row_r1
                    env_ok (req_about "u3" "r1")
                    eq_refl eq_refl eq_refl eq_refl eq_refl)).
  reflexivity.
Defined.

(** X19. Writes respect ownership. Neither update-analysis nor delete ever
    changes a row stored under another id or belonging to another
    candidate, whatever the request and however the store behaves. *)
Theorem writes_respect_ownership
    (env : Env) (req : Request) (w : World) (k : string) (row : ResumeRow) :
  resumes w !! k = Some row ->
  k <> param_resumeId req \/ candidate_id row <> user_id req ->
  resumes (updateResumeAnalysis env req w).2 !! k = Some row /\
  resumes (deleteResume env req w).2 !! k = Some row.
Proof.
  intros Hk Hforeign. split.
  - pose proof (updateResumeAnalysis_cases env req w) as Hcases. cbn zeta in Hcases.
    destruct (db_fault env OpUpdate) as [msg|]; [rewrite Hcases; exact Hk |].
    destruct (resumes w !! param_resumeId req) as [row0|] eqn:Hrow;
      [| rewrite Hcases; exact Hk].
    destruct (String.eqb_spec (candidate_id row0) (user_id req)) as [Hown|Hother];
      [| rewrite Hcases; exact Hk].
    rewrite Hcases. cbn [snd resumes].
    destruct (decide (k = param_resumeId req)) as [->|Hne].
    + rewrite Hrow in Hk. injection Hk as ->. destruct Hforeign; contradiction.
    + rewrite lookup_insert_ne; [exact Hk | congruence].
  - pose proof (deleteResume_scoped env req w) as Hcases.
    destruct (db_fault env OpSelectResume) as [msg|]; [rewrite Hcases; exact Hk |].
    destruct (resumes w !! param_resumeId req) as [row0|] eqn:Hrow;
      [| rewrite Hcases; exact Hk].
    destruct (String.eqb_spec (candidate_id row0) (user_id req)) as [Hown|Hother];
      [| rewrite Hcases; exact Hk].
    destruct Hcases as (resp & w' & tail & Hrun & Htable & _).
    rewrite Hrun. cbn [snd]. rewrite Htable.
    destruct (db_fault env OpDelete); [exact Hk |].
    destruct (decide (k = param_resumeId req)) as [->|Hne].
    + rewrite Hrow in Hk. injection Hk as ->. destruct Hforeign; contradiction.
    + rewrite lookup_delete_ne; [exact Hk | congruence].
Qed.

Lemma writes_respect_ownership_witness :
  resumes (updateResumeAnalysis env_ok (req_r1 "u2" (Some analysis_data_150)) world_one).2
    !! "r1" = Some row_r1 /\
  resumes (deleteResume env_ok (req_r1 "u2" None) world_one).2 !! "r1" = Some row_r1.
Proof.
  assert (Hrow : resumes world_one !! "r1" = Some row_r1) by (vm_compute; reflexivity).
  assert (Hforeign : "r1" <> "r1" \/ candidate_id row_r1 <> "u2")
    by (right; vm_compute; discriminate).
  pose proof (writes_respect_ownership env_ok (req_r1 "u2" (Some analysis_data_150))
                world_one "r1" row_r1 Hrow Hforeign) as [Hupdate _].
  pose proof (writes_respect_ownership env_ok (req_r1 "u2" None)
                world_one "r1" row_r1 Hrow Hforeign) as [_ Hdelete].
  split; assumption.
Defined.

(** X20. The only object a delete can remove from the bucket is the file
    of the caller's own row under the requested id; every other stored
    object, and every profile, is left alone. *)
Theorem delete_bucket_scope (env : Env) (req : Request) (w : World) (q : string) :
  bucket (deleteResume env req w).2 !! q <> bucket w !! q ->
  exists row,
    resumes w !! param_resumeId req = Some row /\
    candidate_id row = user_id req /\
    storage_path row = Some q.
Proof.
  intros Hchanged.
  pose proof (deleteResume_scoped env req w) as Hcases.
  destruct (db_fault env OpSelectResume) as [msg|];
    [rewrite Hcases in Hchanged; destruct (Hchanged eq_refl) |].
  destruct (resumes w !! param_resumeId req) as [row|] eqn:Hrow;
    [| rewrite Hcases in Hchanged; destruct (Hchanged eq_refl)].
  destruct (String.eqb_spec (candidate_id row) (user_id req)) as [Hown|Hother];
    [| rewrite Hcases in Hchanged; destruct (Hchanged eq_refl)].
  destruct Hcases as (resp & w' & tail & Hrun & _ & _ & _ & Hrest).
  rewrite Hrun in Hchanged. cbn [snd] in Hchanged. cbn zeta in Hrest.
  exists row. split; [reflexivity |]. split; [exact Hown |].
  destruct (storage_path row) as [p|].
  2: { destruct Hrest as (_ & _ & Hb). rewrite Hb in Hchanged. destruct (Hchanged eq_refl). }
  destruct (truthy_str p).
  2: { destruct Hrest as (_ & _ & Hb). rewrite Hb in Hchanged. destruct (Hchanged eq_refl). }
  destruct (delete_reply env) as [| |e]; destruct Hrest as (_ & _ & Hb);
    rewrite Hb in Hchanged; try (destruct (Hchanged eq_refl)).
  destruct (decide (p = q)) as [->|Hne]; [reflexivity |].
  rewrite lookup_delete_ne in Hchanged by exact Hne. destruct (Hchanged eq_refl).
Qed.

Lemma delete_bucket_scope_witness :
  exists row,
    resumes world_one !! "r1" = Some row /\
    candidate_id row = "u1" /\
    storage_path row = Some "resumes/resume_u1_1600".
Proof.
  apply (delete_bucket_scope env_ok (req_about "u1" "r1") world_one "resumes/resume_u1_1600").
  vm_compute. discriminate.
Defined.

(** ** List *)

(** What the list query yields on a table. *)
Lemma select_resumes_of_rows
    (ts_leb : string -> string -> bool) (t : gmap string ResumeRow) (cid : string)
    (row : ResumeRow) :
  row ∈ merge_sort (newer_first ts_leb)
          (filter (fun r => candidate_id r = cid) (map_to_list t).*2)
  <-> candidate_id row = cid /\ exists k, t !! k = Some row.
Proof.
  rewrite merge_sort_Permutation, list_elem_of_filter, list_elem_of_fmap.
  split.
  - intros (Hown & [k r] & -> & Hin). split; [exact Hown |].
    exists k. apply elem_of_map_to_list, Hin.
  - intros (Hown & k & Hk). split; [exact Hown |].
    exists (k, row). split; [reflexivity |]. apply elem_of_map_to_list, Hk.
Qed.

Lemma getMyResumes_run
    (ts_leb : string -> string -> bool) (env : Env) (req : Request) (w : World) :
  getMyResumes ts_leb env req w
  = (Normal
       match db_fault env OpSelectResume with
       | Some msg => {| list_status := 400; list_body := LMessage msg |}
       | None =>
           {| list_status := 200;
              list_body :=
                LRows (merge_sort (newer_first ts_leb)
                         (filter (fun r => candidate_id r = user_id req)
                            (map_to_list (resumes w)).*2)) |}
       end, w).
Proof.
  unfold getMyResumes, select_resumes_of. unfold_monad.
  destruct (db_fault env OpSelectResume); reflexivity.
Qed.

(** X21. The list shows the caller's resumes and nobody else's. When the
    store answers, the handler answers 200 with an array in which a row
    occurs exactly when it is stored and belongs to the caller; the world
    is left as it was. *)
Theorem getMyResumes_own_rows
    (ts_leb : string -> string -> bool) (env : Env) (req : Request) (w : World) :
  db_fault env OpSelectResume = None ->
  exists rows,
    getMyResumes ts_leb env req w
    = (Normal {| list_status := 200; list_body := LRows rows |}, w) /\
    (forall row,
        row ∈ rows <->
        candidate_id row = user_id req /\ exists k, resumes w !! k = Some row).
Proof.
  intros Hfault. eexists. split.
  - rewrite getMyResumes_run, Hfault. reflexivity.
  - intros row. apply select_resumes_of_rows.
Qed.

Lemma getMyResumes_own_rows_witness :
  exists rows,
    getMyResumes String.leb env_ok (req_about "u1" "") world_three
    = (Normal {| list_status := 200; list_body := LRows rows |}, world_three) /\
    (row_r3 ∈ rows <->
     candidate_id row_r3 = "u1" /\ exists k, resumes world_three !! k = Some row_r3).
Proof.
  destruct (getMyResumes_own_rows String.leb env_ok (req_about "u1" "") world_three eq_refl)
    as (rows & Hrun & Hmem).
  exists rows. split; [exact Hrun | apply Hmem].
Defined.

(** X22. The list is ordered newest first. Provided the store's order on
    timestamps is total, in the array of a 200 answer no row is followed
    directly by a newer one. *)
Theorem getMyResumes_newest_first
    (ts_leb : string -> string -> bool) (env : Env) (req : Request) (w : World)
    (rows : list ResumeRow) :
  (forall a b, ts_leb a b = true \/ ts_leb b a = true) ->
  (getMyResumes ts_leb env req w).1
  = Normal {| list_status := 200; list_body := LRows rows |} ->
  Sorted (newer_first ts_leb) rows.
Proof.
  intros Htotal Hrun. rewrite getMyResumes_run in Hrun. cbn [fst] in Hrun.
  destruct (db_fault env OpSelectResume); [discriminate |].
  injection Hrun as <-.
  apply Sorted_merge_sort.
  intros r1 r2. unfold newer_first. apply Htotal.
Qed.

Lemma getMyResumes_newest_first_witness :
  Sorted (newer_first String.leb) [row_r2; row_r1].
Proof.
  apply (getMyResumes_newest_first String.leb env_ok (req_about "u1" "") world_three).
  - intros a b. apply String.leb_total.
  - vm_compute. reflexivity.
Defined.

(** X23. The edges of the list. A caller without any resume gets 200 with
    an empty array, not an error; and when the store fails, the handler
    answers 400 with the store's message. In neither case is anything
    written or logged. *)
Theorem getMyResumes_edges
    (ts_leb : string -> string -> bool) (env : Env) (req : Request) (w : World) :
  (db_fault env OpSelectResume = None ->
   (forall k row, resumes w !! k = Some row -> candidate_id row <> user_id req) ->
   getMyResumes ts_leb env req w
   = (Normal {| list_status := 200; list_body := LRows [] |}, w)) /\
  (forall msg,
      db_fault env OpSelectResume = Some msg ->
      getMyResumes ts_leb env req w
      = (Normal {| list_status := 400; list_body := LMessage msg |}, w)).
Proof.
  split.
  - intros Hfault Hnone. rewrite getMyResumes_run, Hfault.
    do 4 f_equal. apply elem_of_nil_inv. intros row Hin.
    apply select_resumes_of_rows in Hin. destruct Hin as (Hown & k & Hk).
    exact (Hnone k row Hk Hown).
  - intros msg Hfault. rewrite getMyResumes_run, Hfault. reflexivity.
Qed.

Lemma getMyResumes_edges_witness :
  getMyResumes String.leb env_ok (req_about "u3" "") world_three
  = (Normal {| list_status := 200; list_body := LRows [] |}, world_three).
Proof.
  apply (proj1 (getMyResumes_edges String.leb env_ok (req_about "u3" "") world_three)).
  - reflexivity.
  - change (map_Forall (fun (_ : string) row => candidate_id row <> "u3")
              (<[ "r1" := row_r1 ]> (<[ "r2" := row_r2 ]> {[ "r3" := row_r3 ]})
               : gmap string ResumeRow)).
    repeat apply map_Forall_insert_2; try apply map_Forall_singleton;
      vm_compute; discriminate.
Defined.

(** X24. Upload then list. After an upload answered 201 with a row, the
    uploader's list contains that row. *)
Theorem upload_then_list
    (ts_leb : string -> string -> bool)
    (env : Env) (req : Request) (w : World) (row : ResumeRow)
    (env2 : Env) (req2 : Request) :
  (uploadResume env req w).1 = Normal {| status := 201; body := JRecord (Some row) |} ->
  db_fault env2 OpSelectResume = None ->
  user_id req2 = user_id req ->
  exists rows,
    (getMyResumes ts_leb env2 req2 (uploadResume env req w).2).1
    = Normal {| list_status := 200; list_body := LRows rows |} /\
    row ∈ rows.
Proof.
  intros H201 Hsel Huser.
  destruct (upload_201_row env req w row H201) as (stored & ad & _ & _ & Hrow & _ & Htable).
  eexists. split; [rewrite getMyResumes_run, Hsel; reflexivity |].
  apply select_resumes_of_rows. split.
  - rewrite Huser, Hrow. reflexivity.
  - exists (db_new_id env). rewrite Htable. apply lookup_insert_eq.
Qed.

Lemma upload_then_list_witness :
  exists rows,
    (getMyResumes String.leb env_ok (req_about "u1" "")
       (uploadResume env_ok req_upload world_one).2).1
    = Normal {| list_status := 200; list_body := LRows rows |} /\
    row_r9 ∈ rows.
Proof.
  apply (upload_then_list String.leb env_ok req_upload world_one row_r9
           env_ok (req_about "u1" ""));
    reflexivity.
Defined.

(** ** Upload, the successful path and its undoing *)

(** X25. The successful upload. With a file, a file name, the object
    stored, the service answering with an object and the insert accepted,
    the answer is 201 with the inserted row: it belongs to the caller,
    points at what the storage write returned, is named after the request's
    file name (after the stored name when that is empty), and carries the
    analysis with its defaults and score. The external calls are, in
    order: storage write, one analysis request, insert. *)
Theorem upload_success
    (env : Env) (req : Request) (w : World) (file f : string)
    (stored : UploadResult) (a : Analysis) :
  body_resumeFile req = Some file ->
  truthy_str file = true ->
  body_fileName req = Some f ->
  upload_reply env = Replied stored ->
  analyze_reply env = Replied (Some a) ->
  insert_refusal env (resumes w) = None ->
  exists row w',
    uploadResume env req w
    = (Normal {| status := 201; body := JRecord (Some row) |}, w') /\
    candidate_id row = user_id req /\
    resume_url row = up_publicUrl stored /\
    storage_path row = Some (up_path stored) /\
    file_name row = (if truthy_str f then f else up_fileName stored) /\
    file_size row = up_fileSize stored /\
    analysis_data row = Some (build_analysisData env a) /\
    resumes w' !! id row = Some row /\
    bucket w' !! up_path stored = Some file /\
    trace w' = trace w
               ++ [EvUploadToSupabase file "resumes" (upload_key env (user_id req));
                   EvAxiosPost (PYTHON_API_URL env +:+ "/api/analyze/resume")
                     (AnalyzeBody "Placeholder resume text" (Some f)
                        (if endsWith f ".pdf" then "pdf" else "docx"))
                     30000;
                   EvInsertResume (upload_insertion req stored
                                     (Some (build_analysisData env a)))].
Proof.
  intros Hfile Htruthy Hname Hstored Hreply Hinsert.
  unfold uploadResume. unfold_monad. rewrite Hfile, Htruthy, Hname. cbn [negb].
  unfold uploadToSupabase. unfold_monad. rewrite Hstored.
  unfold enrich, extractTextFromBase64. run_client. rewrite Hreply.
  unfold insert_resume. unfold_monad. cbn [resumes add_events].
  rewrite Hinsert. cbn.
  eexists _, _. split; [reflexivity |]. cbn.
  do 6 (split; [reflexivity |]).
  split; [apply lookup_insert_eq |]. split; [apply lookup_insert_eq |].
  unfold upload_insertion. rewrite Hname. cbn [js_or].
  repeat (progress (rewrite <- ?app_assoc; cbn [app])). reflexivity.
Qed.

Lemma upload_success_witness :
  exists row w',
    uploadResume env_ok req_upload world_one
    = (Normal {| status := 201; body := JRecord (Some row) |}, w') /\
    file_name row = "resume.pdf" /\
    analysis_data row = Some (build_analysisData env_ok analysis_senior).
Proof.
  destruct (upload_success env_ok req_upload world_one
              "data:application/pdf;base64,JVBERi0x" "resume.pdf" stored_u1 analysis_senior)
    as (row & w' & Hrun & _ & _ & _ & Hname & _ & Had & _);
    try reflexivity.
  exists row, w'. auto.
Defined.

Lemma upload_201_bucket (env : Env) (req : Request) (w : World) (row : ResumeRow) :
  (uploadResume env req w).1 = Normal {| status := 201; body := JRecord (Some row) |} ->
  exists file p,
    storage_path row = Some p /\
    bucket (uploadResume env req w).2 = <[p := file]> (bucket w) /\
    profiles (uploadResume env req w).2 = profiles w.
Proof.
  intros H201.
  pose proof (uploadResume_cases env req w) as Hcases.
  destruct (body_resumeFile req) as [file|].
  2: { rewrite Hcases in H201. discriminate. }
  destruct (truthy_str file).
  2: { rewrite Hcases in H201. discriminate. }
  destruct (upload_reply env) as [stored|e].
  2: { rewrite Hcases in H201. discriminate. }
  destruct Hcases as (ad & evs & _ & Had & Hcases). cbn zeta in Hcases.
  destruct (insert_refusal env (resumes w)) as [msg|] eqn:Hinsert.
  - destruct (delete_reply env); rewrite Hcases in H201; discriminate.
  - rewrite Hcases in *. cbn in *. injection H201 as <-.
    exists file, (up_path stored). auto.
Qed.

(** X26. Upload then delete is a round trip. After an upload answered 201
    with a row, a delete of that row by the uploader, executed by the
    store and by the object store, answers 200 and leaves the table as it
    was before the upload, and the bucket too when the path was free. *)
Theorem upload_then_delete
    (env : Env) (req : Request) (w : World) (row : ResumeRow) (p : string)
    (env2 : Env) (req2 : Request) :
  (uploadResume env req w).1 = Normal {| status := 201; body := JRecord (Some row) |} ->
  storage_path row = Some p ->
  truthy_str p = true ->
  bucket w !! p = None ->
  db_fault env2 OpSelectResume = None ->
  db_fault env2 OpDelete = None ->
  delete_reply env2 = Removed ->
  param_resumeId req2 = id row ->
  user_id req2 = user_id req ->
  exists w',
    deleteResume env2 req2 (uploadResume env req w).2
    = (Normal {| status := 200; body := JMessage "Resume deleted successfully" |}, w') /\
    resumes w' = resumes w /\
    bucket w' = bucket w /\
    profiles w' = profiles w.
Proof.
  intros H201 Hpath Htruthy Hfree Hsel Hdel Hremoved Hid Huser.
  destruct (upload_201_row env req w row H201)
    as (stored & ad & _ & _ & Hrow & Hfresh & Htable).
  destruct (upload_201_bucket env req w row H201) as (file & p' & Hpath' & Hbucket & Hprof).
  rewrite Hpath in Hpath'. injection Hpath' as <-.
  pose proof (deleteResume_scoped env2 req2 (uploadResume env req w).2) as Hcases.
  assert (Hid' : param_resumeId req2 = db_new_id env) by (rewrite Hid, Hrow; reflexivity).
  assert (Hown : candidate_id row = user_id req2) by (rewrite Huser, Hrow; reflexivity).
  rewrite Hsel, Htable, Hid', lookup_insert_eq, Hown, String.eqb_refl in Hcases.
  destruct Hcases as (resp & w' & tail & Hrun & Htable' & Hprof' & _ & Hrest).
  cbn zeta in Hrest. rewrite Hpath, Htruthy, Hremoved in Hrest.
  destruct Hrest as (-> & _ & Hbucket').
  exists w'. split; [exact Hrun |]. split; [| split].
  - rewrite Htable', Hdel. apply delete_insert_id, Hfresh.
  - rewrite Hbucket', Hbucket. apply delete_insert_id, Hfree.
  - rewrite Hprof', Hprof. reflexivity.
Qed.

Lemma upload_then_delete_witness :
  exists w',
    deleteResume env_ok (req_about "u1" "r9") (uploadResume env_ok req_upload world_one).2
    = (Normal {| status := 200; body := JMessage "Resume deleted successfully" |}, w') /\
    resumes w' = resumes world_one.
Proof.
  destruct (upload_then_delete env_ok req_upload world_one row_r9 "resumes/resume_u1_1700"
              env_ok (req_about "u1" "r9"))
    as (w' & Hrun & Htable & _); try reflexivity.
  exists w'. split; assumption.
Defined.

(** X27. The analysis never decides an upload's fate. Two runs of the same
    request on the same world, in surroundings that agree on the object
    store and on the insert but not necessarily on the analysis service,
    answer with the same status and leave the same bucket and the same
    profiles. *)
Theorem upload_status_ignores_analysis
    (env env' : Env) (req : Request) (w : World) :
  upload_reply env = upload_reply env' ->
  delete_reply env = delete_reply env' ->
  insert_refusal env (resumes w) = insert_refusal env' (resumes w) ->
  exists r r',
    (uploadResume env req w).1 = Normal r /\
    (uploadResume env' req w).1 = Normal r' /\
    status r = status r' /\
    bucket (uploadResume env req w).2 = bucket (uploadResume env' req w).2 /\
    profiles (uploadResume env req w).2 = profiles (uploadResume env' req w).2.
Proof.
  intros Hup Hdel Hins.
  pose proof (uploadResume_cases env req w) as H1.
  pose proof (uploadResume_cases env' req w) as H2.
  rewrite <- Hup, <- Hdel, <- Hins in H2.
  destruct (body_resumeFile req) as [file|].
  2: { rewrite H1, H2. eexists _, _. repeat split. }
  destruct (truthy_str file).
  2: { rewrite H1, H2. eexists _, _. repeat split. }
  destruct (upload_reply env) as [stored|e].
  2: { rewrite H1, H2. eexists _, _. repeat split. }
  destruct H1 as (ad1 & evs1 & _ & _ & H1). destruct H2 as (ad2 & evs2 & _ & _ & H2).
  cbn zeta in H1, H2.
  destruct (insert_refusal env (resumes w)) as [msg|].
  - destruct (delete_reply env) as [| |e]; rewrite H1, H2; eexists _, _; repeat split.
  - rewrite H1, H2. eexists _, _. repeat split.
Qed.

Lemma upload_status_ignores_analysis_witness :
  exists r r',
    (uploadResume env_ok req_upload world_one).1 = Normal r /\
    (uploadResume env_service_down req_upload world_one).1 = Normal r' /\
    status r = status r'.
Proof.
  destruct (upload_status_ignores_analysis env_ok env_service_down req_upload world_one)
    as (r & r' & H1 & H2 & Hs & _); try reflexivity.
  exists r, r'. auto.
Defined.
